(** * AD713x driver: a shallow embedding of [drivers/adc/ad713x/ad713x.c]

    The driver talks to the chip through the platform's SPI and GPIO
    services.  Those services, and the constants of [ad713x.h] and
    [error.h], are not part of the translation unit; they are taken as
    parameters (two type classes).  Every call the driver makes to the
    platform is recorded in a trace, so that properties about the order
    and number of register accesses and resource releases can be stated. *)

From Stdlib Require Import ZArith List Bool Lia.
Import ListNotations.
Local Open Scope Z_scope.

(** ** Fixed-width integers

    C integers are modelled in [Z]; a conversion to a narrower type is
    written out as the corresponding wrap-around. *)

Definition u8 (x : Z) : Z := x mod 256.
Definition u32 (x : Z) : Z := x mod 2 ^ 32.
Definition s8 (x : Z) : Z := (x + 128) mod 256 - 128.

(** What [reg_data &= ~mask; reg_data |= data;] leaves in the
    [uint8_t reg_data] that held [r], for a [uint32_t mask] and a
    [uint8_t data]. *)
Definition merged (r mask data : Z) : Z :=
  u8 (Z.lor (u8 (Z.land r (u32 (Z.lnot (u32 mask))))) (u8 data)).

(** ** Constants and macros of [ad713x.h] and [error.h]

    The enumerators and register macros the driver mentions by name.
    Enumerations are C [int]s. *)

Class ad713x_h : Type := {
  (* error.h *)
  SUCCESS : Z;
  FAILURE : Z;
  IS_ERR_VALUE : Z -> bool;
  (* enum ad713x_adc_data_len *)
  ADC_16_BIT_DATA : Z;
  ADC_24_BIT_DATA : Z;
  ADC_32_BIT_DATA : Z;
  INVALID : Z;
  (* enum ad713x_crc_header *)
  NO_CRC : Z;
  CRC_6 : Z;
  CRC_8 : Z;
  (* enum ad713x_power_mode *)
  LOW_POWER : Z;
  HIGH_POWER : Z;
  (* enum ad713x_channels *)
  CH0 : Z;
  CH1 : Z;
  CH2 : Z;
  CH3 : Z;
  (* enum ad717x_mpc_clkdel *)
  DELAY_NONE : Z;
  DELAY_2_CLOCKS : Z;
  (* register addresses *)
  AD713X_REG_DEVICE_CONFIG : Z;
  AD713X_REG_DEVICE_CONFIG1 : Z;
  AD713X_REG_DATA_PACKET_CONFIG : Z;
  AD713X_REG_DIGITAL_INTERFACE_CONFIG : Z;
  AD713X_REG_MPC_CONFIG : Z;
  AD713X_REG_CHAN_DIG_FILTER_SEL : Z;
  AD713X_REG_FIR_BW_SEL : Z;
  (* bit fields *)
  AD713X_REG_READ : Z -> Z;
  AD713X_DEV_CONFIG_PWR_MODE_MSK : Z;
  AD713X_DEV_CONFIG1_CLKOUT_EN_MSK : Z;
  AD713X_DEV_CONFIG1_REF_GAIN_CORR_EN_MSK : Z;
  AD713X_DATA_PACKET_CONFIG_FRAME_MSK : Z;
  AD713X_DATA_PACKET_CONFIG_FRAME_MODE : Z -> Z;
  AD713X_DIG_INT_CONFIG_FORMAT_MSK : Z;
  AD713X_DIG_INT_CONFIG_FORMAT_MODE : Z -> Z;
  AD713X_MPC_CLKDEL_EN_CH_MSK : Z -> Z;
  AD713X_MPC_CLKDEL_EN_CH_MODE : Z -> Z -> Z;
  AD713X_DIGFILTER_SEL_CH_MSK : Z -> Z;
  AD713X_DIGFILTER_SEL_CH_MODE : Z -> Z -> Z;
  AD713X_FIR_BW_SEL_CH_MSK : Z -> Z
}.

(** ** Data of the driver *)

(** A pointer handed out by the platform; [None] is the null pointer. *)
Definition handle := nat.
Definition ptr := option handle.

Definition is_null (p : ptr) : bool :=
  match p with Some _ => false | None => true end.

(** [struct spi_init_param] and [struct spi_desc]: the fields the driver
    reads or writes. *)
Record spi_init_param : Type := {
  prm_max_speed_hz : Z;
  prm_chip_select : Z;
  prm_mode : Z
}.

Record spi_desc_t : Type := {
  max_speed_hz : Z;
  chip_select : Z;
  mode : Z;
  extra : Z
}.

(** [struct gpio_init_param]: the line number. *)
Definition gpio_init_param := Z.

(** [struct ad713x_dev]. *)
Record ad713x_dev : Type := {
  spi_desc : ptr;
  gpio_mode : ptr;
  gpio_dclkmode : ptr;
  gpio_dclkio : ptr;
  gpio_resetn : ptr;
  gpio_pnd : ptr;
  dev_id : Z
}.

(** [struct ad713x_init_param]; the fields carry the prefix [ip_] since
    several of them share their name with a field of [ad713x_dev]. *)
Record ad713x_init_param : Type := {
  ip_spi_init_prm : spi_init_param;
  ip_gpio_mode : gpio_init_param;
  ip_gpio_dclkmode : gpio_init_param;
  ip_gpio_dclkio : gpio_init_param;
  ip_gpio_resetn : gpio_init_param;
  ip_gpio_pnd : gpio_init_param;
  ip_mode_master_nslave : Z;
  ip_dclkmode_free_ngated : Z;
  ip_dclkio_out_nin : Z;
  ip_pnd : Z;
  ip_dev_id : Z;
  ip_adc_data_len : Z;
  ip_crc_header : Z;
  ip_format : Z;
  ip_clk_delay_en : bool;
  ip_spi_common_dev : option spi_desc_t
}.

(** The block [calloc] returns for a device: every field zero. *)
Definition dev_zero : ad713x_dev :=
  {| spi_desc := None; gpio_mode := None; gpio_dclkmode := None;
     gpio_dclkio := None; gpio_resetn := None; gpio_pnd := None;
     dev_id := 0 |}.

Definition set_spi_desc (d : ad713x_dev) (p : ptr) : ad713x_dev :=
  {| spi_desc := p; gpio_mode := gpio_mode d;
     gpio_dclkmode := gpio_dclkmode d; gpio_dclkio := gpio_dclkio d;
     gpio_resetn := gpio_resetn d; gpio_pnd := gpio_pnd d;
     dev_id := dev_id d |}.
Definition set_gpio_mode (d : ad713x_dev) (p : ptr) : ad713x_dev :=
  {| spi_desc := spi_desc d; gpio_mode := p;
     gpio_dclkmode := gpio_dclkmode d; gpio_dclkio := gpio_dclkio d;
     gpio_resetn := gpio_resetn d; gpio_pnd := gpio_pnd d;
     dev_id := dev_id d |}.
Definition set_gpio_dclkmode (d : ad713x_dev) (p : ptr) : ad713x_dev :=
  {| spi_desc := spi_desc d; gpio_mode := gpio_mode d;
     gpio_dclkmode := p; gpio_dclkio := gpio_dclkio d;
     gpio_resetn := gpio_resetn d; gpio_pnd := gpio_pnd d;
     dev_id := dev_id d |}.
Definition set_gpio_dclkio (d : ad713x_dev) (p : ptr) : ad713x_dev :=
  {| spi_desc := spi_desc d; gpio_mode := gpio_mode d;
     gpio_dclkmode := gpio_dclkmode d; gpio_dclkio := p;
     gpio_resetn := gpio_resetn d; gpio_pnd := gpio_pnd d;
     dev_id := dev_id d |}.
Definition set_gpio_resetn (d : ad713x_dev) (p : ptr) : ad713x_dev :=
  {| spi_desc := spi_desc d; gpio_mode := gpio_mode d;
     gpio_dclkmode := gpio_dclkmode d; gpio_dclkio := gpio_dclkio d;
     gpio_resetn := p; gpio_pnd := gpio_pnd d;
     dev_id := dev_id d |}.
Definition set_gpio_pnd (d : ad713x_dev) (p : ptr) : ad713x_dev :=
  {| spi_desc := spi_desc d; gpio_mode := gpio_mode d;
     gpio_dclkmode := gpio_dclkmode d; gpio_dclkio := gpio_dclkio d;
     gpio_resetn := gpio_resetn d; gpio_pnd := p;
     dev_id := dev_id d |}.
Definition set_dev_id (d : ad713x_dev) (id : Z) : ad713x_dev :=
  {| spi_desc := spi_desc d; gpio_mode := gpio_mode d;
     gpio_dclkmode := gpio_dclkmode d; gpio_dclkio := gpio_dclkio d;
     gpio_resetn := gpio_resetn d; gpio_pnd := gpio_pnd d;
     dev_id := id |}.

(** ** The platform

    What the driver is linked against.  [P] is the state of the platform
    (bus, pins, allocator); each service maps a state and the arguments to
    a new state and the values the C function hands back: its return code
    and what it leaves in the locations it is given. *)

Inductive object : Type := ObjDev | ObjSpiDesc.

Class Platform (P : Type) : Type := {
  plat_calloc : P -> object -> P * ptr;
  plat_free : P -> ptr -> P;
  plat_spi_init : P -> spi_init_param -> P * (Z * ptr);
  plat_spi_remove : P -> ptr -> P * Z;
  plat_spi_write_and_read : P -> ptr -> Z * Z -> P * (Z * (Z * Z));
  plat_gpio_get : P -> gpio_init_param -> P * (Z * ptr);
  plat_gpio_remove : P -> ptr -> P * Z;
  plat_gpio_direction_output : P -> ptr -> Z -> P * Z;
  plat_gpio_set_value : P -> ptr -> Z -> P * Z;
  plat_mdelay : P -> Z -> P
}.

(** ** Traces *)

Inductive event : Type :=
| EvCalloc (o : object) (p : ptr)
| EvFree (p : ptr)
| EvSpiInit (prm : spi_init_param) (ret : Z) (desc : ptr)
| EvSpiRemove (desc : ptr) (ret : Z)
| EvSpiXfer (desc : ptr) (tx0 tx1 : Z) (ret : Z) (rx0 rx1 : Z)
| EvGpioGet (prm : gpio_init_param) (ret : Z) (desc : ptr)
| EvGpioRemove (desc : ptr) (ret : Z)
| EvGpioDirOut (desc : ptr) (value : Z) (ret : Z)
| EvGpioSetValue (desc : ptr) (value : Z) (ret : Z)
| EvMdelay (ms : Z)
| EvDescStore (h : handle) (sd : spi_desc_t).

Record world (P : Type) : Type := mkWorld {
  plat : P;
  trace : list event
}.
Arguments mkWorld {P} _ _.
Arguments plat {P} _.
Arguments trace {P} _.

(** ** A state monad with faults

    [Fault] stands for undefined behaviour of the C program (a null
    dereference, an array access out of bounds); [Starved] for a loop
    that has used up the fuel it was given. *)

Inductive fault : Type := NullDeref | OutOfBounds.

Inductive outcome (P A : Type) : Type :=
| Ok (a : A) (w : world P)
| Fault (f : fault)
| Starved.
Arguments Ok {P A} _ _.
Arguments Fault {P A} _.
Arguments Starved {P A}.

Definition M (P A : Type) : Type := world P -> outcome P A.

Definition Return {P A} (a : A) : M P A := fun w => Ok a w.

Definition Bind {P A B} (c : M P A) (k : A -> M P B) : M P B :=
  fun w =>
    match c w with
    | Ok a w' => k a w'
    | Fault f => Fault f
    | Starved => Starved
    end.

Definition raise {P A} (f : fault) : M P A := fun _ => Fault f.
Definition out_of_fuel {P A} : M P A := fun _ => Starved.

Declare Scope drv_scope.
Delimit Scope drv_scope with drv.
Notation "x <- c ;; k" := (Bind c (fun x => k))
  (at level 100, c at next level, right associativity) : drv_scope.
Notation "' pat <- c ;; k" := (Bind c (fun x => match x with pat => k end))
  (at level 100, pat pattern, c at next level, right associativity)
  : drv_scope.
Notation "c ;;; k" := (Bind c (fun _ => k))
  (at level 100, right associativity) : drv_scope.

(** ** The driver *)

Section Driver.

Context {hdr : ad713x_h} {P : Type} {pf : Platform P}.
Local Open Scope drv_scope.

(** *** Platform calls, recorded in the trace *)

Definition calloc (o : object) : M P ptr := fun w =>
  let '(p', r) := plat_calloc (plat w) o in
  Ok r (mkWorld p' (trace w ++ [EvCalloc o r])).

Definition free (p : ptr) : M P unit := fun w =>
  Ok tt (mkWorld (plat_free (plat w) p) (trace w ++ [EvFree p])).

Definition spi_init (prm : spi_init_param) : M P (Z * ptr) := fun w =>
  let '(p', (ret, d)) := plat_spi_init (plat w) prm in
  Ok (ret, d) (mkWorld p' (trace w ++ [EvSpiInit prm ret d])).

Definition spi_remove (desc : ptr) : M P Z := fun w =>
  let '(p', ret) := plat_spi_remove (plat w) desc in
  Ok ret (mkWorld p' (trace w ++ [EvSpiRemove desc ret])).

(** The buffer is [uint8_t buf[2]]: what the bus leaves in it is a pair
    of bytes. *)
Definition spi_write_and_read (desc : ptr) (buf : Z * Z)
  : M P (Z * (Z * Z)) := fun w =>
  let '(p', (ret, (rx0, rx1))) :=
    plat_spi_write_and_read (plat w) desc buf in
  Ok (ret, (u8 rx0, u8 rx1))
     (mkWorld p' (trace w ++
        [EvSpiXfer desc (fst buf) (snd buf) ret (u8 rx0) (u8 rx1)])).

Definition gpio_get (prm : gpio_init_param) : M P (Z * ptr) := fun w =>
  let '(p', (ret, d)) := plat_gpio_get (plat w) prm in
  Ok (ret, d) (mkWorld p' (trace w ++ [EvGpioGet prm ret d])).

Definition gpio_remove (desc : ptr) : M P Z := fun w =>
  let '(p', ret) := plat_gpio_remove (plat w) desc in
  Ok ret (mkWorld p' (trace w ++ [EvGpioRemove desc ret])).

Definition gpio_direction_output (desc : ptr) (value : Z) : M P Z :=
  fun w =>
  let '(p', ret) := plat_gpio_direction_output (plat w) desc value in
  Ok ret (mkWorld p' (trace w ++ [EvGpioDirOut desc value ret])).

Definition gpio_set_value (desc : ptr) (value : Z) : M P Z := fun w =>
  let '(p', ret) := plat_gpio_set_value (plat w) desc value in
  Ok ret (mkWorld p' (trace w ++ [EvGpioSetValue desc value ret])).

Definition mdelay (ms : Z) : M P unit := fun w =>
  Ok tt (mkWorld (plat_mdelay (plat w) ms) (trace w ++ [EvMdelay ms])).

(** A store through a [struct spi_desc *] the driver allocated itself. *)
Definition store_desc (h : handle) (sd : spi_desc_t) : M P unit := fun w =>
  Ok tt (mkWorld (plat w) (trace w ++ [EvDescStore h sd])).

(** *** The frame table

    [static const int ad713x_output_data_frame[3][9][2]].  The
    initialiser lists fewer than nine rows per variant and a single
    element for the sentinel; C fills what is left with zeros. *)

Definition zero_fill {A} (n : nat) (z : A) (l : list A) : list A :=
  l ++ repeat z (n - length l).

Definition ad713x_output_data_frame : list (list (list Z)) :=
  map (fun rows => zero_fill 9 [0; 0] (map (zero_fill 2 0) rows))
  [ [ [ADC_16_BIT_DATA; CRC_6];
      [ADC_24_BIT_DATA; CRC_6];
      [ADC_32_BIT_DATA; NO_CRC];
      [ADC_32_BIT_DATA; CRC_6];
      [ADC_16_BIT_DATA; NO_CRC];
      [ADC_24_BIT_DATA; NO_CRC];
      [ADC_24_BIT_DATA; CRC_8];
      [ADC_32_BIT_DATA; CRC_8];
      [INVALID] ];
    [ [ADC_16_BIT_DATA; NO_CRC];
      [ADC_16_BIT_DATA; CRC_6];
      [ADC_24_BIT_DATA; NO_CRC];
      [ADC_24_BIT_DATA; CRC_6];
      [ADC_16_BIT_DATA; CRC_8];
      [ADC_24_BIT_DATA; CRC_8];
      [INVALID] ];
    [ [ADC_16_BIT_DATA; NO_CRC];
      [ADC_16_BIT_DATA; CRC_6];
      [ADC_16_BIT_DATA; CRC_8];
      [INVALID] ] ].

(** [ad713x_output_data_frame[id][i][k]]; [None] when an index leaves
    its dimension. *)
Definition frame_entry (id i k : Z) : option Z :=
  if (id <? 0) || (i <? 0) || (k <? 0) then None else
  match nth_error ad713x_output_data_frame (Z.to_nat id) with
  | None => None
  | Some rows =>
      match nth_error rows (Z.to_nat i) with
      | None => None
      | Some e => nth_error e (Z.to_nat k)
      end
  end.

(** *** Register access *)

Definition ad713x_spi_reg_read (dev : ad713x_dev) (reg_addr : Z)
  (reg_data : Z) : M P (Z * Z) :=
  let reg_addr := u8 reg_addr in
  let buf0 := u8 (AD713X_REG_READ reg_addr) in
  let buf1 := 0 in
  '(ret, (_, b1)) <- spi_write_and_read (spi_desc dev) (buf0, buf1) ;;
  if IS_ERR_VALUE ret then Return (FAILURE, reg_data)
  else Return (SUCCESS, b1).

Definition ad713x_spi_reg_write (dev : ad713x_dev) (reg_addr : Z)
  (reg_data : Z) : M P Z :=
  let buf0 := u8 reg_addr in
  let buf1 := u8 reg_data in
  '(ret, _) <- spi_write_and_read (spi_desc dev) (buf0, buf1) ;;
  Return ret.

(** The local [reg_data] is not initialised; it is only read after a
    successful [ad713x_spi_reg_read] has stored into it, so the value it
    starts with (0 here) is never seen. *)
Definition ad713x_spi_write_mask (dev : ad713x_dev) (reg_addr : Z)
  (mask : Z) (data : Z) : M P Z :=
  let reg_addr := u8 reg_addr in
  let mask := u32 mask in
  let data := u8 data in
  '(ret, reg_data) <- ad713x_spi_reg_read dev reg_addr 0 ;;
  if IS_ERR_VALUE ret then Return FAILURE else
  let reg_data := u8 (Z.land reg_data (u32 (Z.lnot mask))) in
  let reg_data := u8 (Z.lor reg_data data) in
  ad713x_spi_reg_write dev reg_addr reg_data.

(** *** Configuration setters *)

Definition ad713x_set_power_mode (dev : ad713x_dev) (mode : Z) : M P Z :=
  if mode =? LOW_POWER then
    ad713x_spi_write_mask dev AD713X_REG_DEVICE_CONFIG
                          AD713X_DEV_CONFIG_PWR_MODE_MSK 0
  else if mode =? HIGH_POWER then
    ad713x_spi_write_mask dev AD713X_REG_DEVICE_CONFIG
                          AD713X_DEV_CONFIG_PWR_MODE_MSK 1
  else Return FAILURE.

(** The [while] loop of [ad713x_set_out_data_frame], entered with the
    current value of [i]. *)
Fixpoint out_data_frame_loop (fuel : nat) (dev : ad713x_dev) (id i : Z)
  (adc_data_len crc_header : Z) : M P Z :=
  match fuel with
  | O => out_of_fuel
  | S fuel' =>
      match frame_entry id i 0 with
      | None => raise OutOfBounds
      | Some e0 =>
          if negb (e0 =? INVALID) then
            if adc_data_len =? e0 then
              match frame_entry id i 1 with
              | None => raise OutOfBounds
              | Some e1 =>
                  if crc_header =? e1 then
                    ad713x_spi_write_mask dev
                      AD713X_REG_DATA_PACKET_CONFIG
                      AD713X_DATA_PACKET_CONFIG_FRAME_MSK
                      (AD713X_DATA_PACKET_CONFIG_FRAME_MODE i)
                  else
                    out_data_frame_loop fuel' dev id (u8 (i + 1))
                                        adc_data_len crc_header
              end
            else
              out_data_frame_loop fuel' dev id (u8 (i + 1))
                                  adc_data_len crc_header
          else Return FAILURE
      end
  end.

Definition ad713x_set_out_data_frame (fuel : nat) (dev : ad713x_dev)
  (adc_data_len crc_header : Z) : M P Z :=
  let id := u8 (dev_id dev) in
  out_data_frame_loop fuel dev id 0 adc_data_len crc_header.

Definition ad713x_dout_format_config (dev : ad713x_dev) (format : Z)
  : M P Z :=
  ad713x_spi_write_mask dev AD713X_REG_DIGITAL_INTERFACE_CONFIG
                        AD713X_DIG_INT_CONFIG_FORMAT_MSK
                        (AD713X_DIG_INT_CONFIG_FORMAT_MODE format).

(** [for (i = start; i >= 0; i--) { ret = body(i); if (IS_ERR_VALUE(ret))
    return FAILURE; } return SUCCESS;] with [int8_t i]: [n] is the number
    of iterations left, the body runs at [i = n - 1]. *)
Fixpoint count_down (n : nat) (body : Z -> M P Z) : M P Z :=
  match n with
  | O => Return SUCCESS
  | S k =>
      ret <- body (Z.of_nat k) ;;
      if IS_ERR_VALUE ret then Return FAILURE else count_down k body
  end.

Definition ad713x_mag_phase_clk_delay (dev : ad713x_dev)
  (clk_delay_en : bool) : M P Z :=
  let temp_clk_delay :=
    if clk_delay_en then s8 DELAY_2_CLOCKS else s8 DELAY_NONE in
  count_down (Z.to_nat (s8 CH3 + 1)) (fun i =>
    ad713x_spi_write_mask dev AD713X_REG_MPC_CONFIG
      (AD713X_MPC_CLKDEL_EN_CH_MSK i)
      (AD713X_MPC_CLKDEL_EN_CH_MODE temp_clk_delay i)).

Definition ad713x_mag_phase_clk_delay_chan (dev : ad713x_dev)
  (chan : Z) (mode : Z) : M P Z :=
  ad713x_spi_write_mask dev AD713X_REG_MPC_CONFIG
    (AD713X_MPC_CLKDEL_EN_CH_MSK chan)
    (AD713X_MPC_CLKDEL_EN_CH_MODE mode chan).

Definition ad713x_dig_filter_sel_ch (dev : ad713x_dev) (filter ch : Z)
  : M P Z :=
  ad713x_spi_write_mask dev AD713X_REG_CHAN_DIG_FILTER_SEL
    (AD713X_DIGFILTER_SEL_CH_MSK ch)
    (AD713X_DIGFILTER_SEL_CH_MODE filter ch).

Definition ad713x_clkout_output_en (dev : ad713x_dev) (enable : bool)
  : M P Z :=
  ad713x_spi_write_mask dev AD713X_REG_DEVICE_CONFIG1
    AD713X_DEV_CONFIG1_CLKOUT_EN_MSK
    (if enable then AD713X_DEV_CONFIG1_CLKOUT_EN_MSK else 0).

Definition ad713x_ref_gain_correction_en (dev : ad713x_dev)
  (enable : bool) : M P Z :=
  ad713x_spi_write_mask dev AD713X_REG_DEVICE_CONFIG1
    AD713X_DEV_CONFIG1_REF_GAIN_CORR_EN_MSK
    (if enable then AD713X_DEV_CONFIG1_REF_GAIN_CORR_EN_MSK else 0).

Definition ad713x_wideband_bw_sel (dev : ad713x_dev) (ch : Z)
  (wb_opt : Z) : M P Z :=
  let wb_opt := u8 wb_opt in
  ad713x_spi_write_mask dev AD713X_REG_FIR_BW_SEL
    (AD713X_FIR_BW_SEL_CH_MSK ch)
    (if negb (wb_opt =? 0) then AD713X_FIR_BW_SEL_CH_MSK ch else 0).

(** *** GPIO set-up and release *)

Definition ad713x_init_gpio (dev : ad713x_dev)
  (init_param : ad713x_init_param) : M P (Z * ad713x_dev) :=
  '(ret, d) <- gpio_get (ip_gpio_mode init_param) ;;
  let dev := set_gpio_mode dev d in
  if IS_ERR_VALUE ret then Return (FAILURE, dev) else
  '(ret, d) <- gpio_get (ip_gpio_dclkmode init_param) ;;
  let dev := set_gpio_dclkmode dev d in
  if IS_ERR_VALUE ret then Return (FAILURE, dev) else
  '(ret, d) <- gpio_get (ip_gpio_dclkio init_param) ;;
  let dev := set_gpio_dclkio dev d in
  if IS_ERR_VALUE ret then Return (FAILURE, dev) else
  '(ret, d) <- gpio_get (ip_gpio_resetn init_param) ;;
  let dev := set_gpio_resetn dev d in
  if IS_ERR_VALUE ret then Return (FAILURE, dev) else
  '(ret, d) <- gpio_get (ip_gpio_pnd init_param) ;;
  let dev := set_gpio_pnd dev d in
  if IS_ERR_VALUE ret then Return (FAILURE, dev) else
  ret <- gpio_direction_output (gpio_mode dev)
                               (ip_mode_master_nslave init_param) ;;
  if IS_ERR_VALUE ret then Return (FAILURE, dev) else
  ret <- gpio_direction_output (gpio_dclkmode dev)
                               (ip_dclkmode_free_ngated init_param) ;;
  if IS_ERR_VALUE ret then Return (FAILURE, dev) else
  ret <- gpio_direction_output (gpio_dclkio dev)
                               (ip_dclkio_out_nin init_param) ;;
  if IS_ERR_VALUE ret then Return (FAILURE, dev) else
  ret <- gpio_direction_output (gpio_pnd dev) (ip_pnd init_param) ;;
  if IS_ERR_VALUE ret then Return (FAILURE, dev) else
  ret <- gpio_direction_output (gpio_resetn dev) 0 ;;
  if IS_ERR_VALUE ret then Return (FAILURE, dev) else
  mdelay 100 ;;;
  ret <- gpio_set_value (gpio_resetn dev) 1 ;;
  if IS_ERR_VALUE ret then Return (FAILURE, dev) else
  mdelay 100 ;;;
  Return (SUCCESS, dev).

(** [if (cond) { ret = gpio_remove(desc); if (IS_ERR_VALUE(ret)) return
    FAILURE; }], then the rest [k] of the function. *)
Definition remove_if (cond desc : ptr) (k : M P Z) : M P Z :=
  if negb (is_null cond) then
    ret <- gpio_remove desc ;;
    if IS_ERR_VALUE ret then Return FAILURE else k
  else k.

(** The second test reads [gpio_dclkio] and removes [gpio_dclkmode], as
    the source does. *)
Definition ad713x_remove_gpio (dev : ad713x_dev) : M P Z :=
  remove_if (gpio_dclkio dev) (gpio_dclkio dev)
  (remove_if (gpio_dclkio dev) (gpio_dclkmode dev)
  (remove_if (gpio_mode dev) (gpio_mode dev)
  (remove_if (gpio_pnd dev) (gpio_pnd dev)
  (remove_if (gpio_resetn dev) (gpio_resetn dev)
  (Return SUCCESS))))).

Definition ad713x_init_chan_bw (dev : ad713x_dev) : M P Z :=
  count_down (Z.to_nat (s8 CH3 + 1)) (fun i =>
    ad713x_wideband_bw_sel dev i 0).

(** *** Teardown and initialisation

    A [struct ad713x_dev *] is a pair of the block's address and its
    contents; [None] is the null pointer. *)

Definition ad713x_remove (dev : option (handle * ad713x_dev)) : M P Z :=
  match dev with
  | None => Return FAILURE
  | Some (h, d) =>
      ret <- spi_remove (spi_desc d) ;;
      if IS_ERR_VALUE ret then Return FAILURE else
      ret <- ad713x_remove_gpio d ;;
      if IS_ERR_VALUE ret then Return FAILURE else
      free (Some h) ;;;
      Return SUCCESS
  end.

(** The two error labels of [ad713x_init]; [error_gpio] falls through
    to [error_dev]. *)
Definition error_dev (h : handle) (dev : ad713x_dev)
  : M P (Z * option (handle * ad713x_dev)) :=
  _ <- ad713x_remove (Some (h, dev)) ;;
  Return (FAILURE, None).

Definition error_gpio (h : handle) (dev : ad713x_dev)
  : M P (Z * option (handle * ad713x_dev)) :=
  _ <- ad713x_remove_gpio dev ;;
  error_dev h dev.

(** [ad713x_init] from the call of [ad713x_init_gpio] on. *)
Definition init_after_spi (fuel : nat) (h : handle) (dev : ad713x_dev)
  (init_param : ad713x_init_param)
  : M P (Z * option (handle * ad713x_dev)) :=
  '(ret, dev) <- ad713x_init_gpio dev init_param ;;
  if IS_ERR_VALUE ret then error_gpio h dev else
  let dev := set_dev_id dev (ip_dev_id init_param) in
  '(ret, data) <- ad713x_spi_reg_read dev AD713X_REG_DEVICE_CONFIG 0 ;;
  if IS_ERR_VALUE ret then error_gpio h dev else
  let data := u8 (Z.lor data AD713X_DEV_CONFIG_PWR_MODE_MSK) in
  ret <- ad713x_spi_reg_write dev AD713X_REG_DEVICE_CONFIG data ;;
  if IS_ERR_VALUE ret then error_gpio h dev else
  ret <- ad713x_clkout_output_en dev true ;;
  if IS_ERR_VALUE ret then error_gpio h dev else
  ret <- ad713x_ref_gain_correction_en dev true ;;
  if IS_ERR_VALUE ret then error_gpio h dev else
  ret <- ad713x_set_out_data_frame fuel dev (ip_adc_data_len init_param)
                                   (ip_crc_header init_param) ;;
  if IS_ERR_VALUE ret then error_gpio h dev else
  ret <- ad713x_dout_format_config dev (ip_format init_param) ;;
  if IS_ERR_VALUE ret then error_gpio h dev else
  ret <- ad713x_mag_phase_clk_delay dev (ip_clk_delay_en init_param) ;;
  if IS_ERR_VALUE ret then error_gpio h dev else
  ret <- ad713x_init_chan_bw dev ;;
  if IS_ERR_VALUE ret then error_gpio h dev else
  Return (SUCCESS, Some (h, dev)).

(** The result is the return code and what is stored in [*device]
    ([None]: nothing is stored).  In the shared-bus branch the result of
    [calloc] is dereferenced unchecked; the four stores through it are
    one [EvDescStore]. *)
Definition ad713x_init (fuel : nat) (init_param : ad713x_init_param)
  : M P (Z * option (handle * ad713x_dev)) :=
  p <- calloc ObjDev ;;
  match p with
  | None => Return (FAILURE, None)
  | Some h =>
      let dev := dev_zero in
      match ip_spi_common_dev init_param with
      | None =>
          '(ret, d) <- spi_init (ip_spi_init_prm init_param) ;;
          let dev := set_spi_desc dev d in
          if IS_ERR_VALUE ret then error_dev h dev
          else init_after_spi fuel h dev init_param
      | Some common =>
          q <- calloc ObjSpiDesc ;;
          let dev := set_spi_desc dev q in
          match q with
          | None => raise NullDeref
          | Some hs =>
              store_desc hs
                {| max_speed_hz :=
                     prm_max_speed_hz (ip_spi_init_prm init_param);
                   chip_select :=
                     prm_chip_select (ip_spi_init_prm init_param);
                   mode := prm_mode (ip_spi_init_prm init_param);
                   extra := extra common |} ;;;
              init_after_spi fuel h dev init_param
          end
      end
  end.

End Driver.

(** ** Resources in a trace *)

Inductive resource : Type :=
| RMem (h : handle)
| RSpi (h : handle)
| RGpio (h : handle).

Definition resource_eq_dec (a b : resource) : {a = b} + {a <> b}.
Proof. decide equality; apply Nat.eq_dec. Defined.

Section Accounting.

Context {hdr : ad713x_h}.

(** What a call acquires: a block from a [calloc] that did not return
    null, a descriptor from an [spi_init] or [gpio_get] that succeeded. *)
Definition acquired_by (e : event) : list resource :=
  match e with
  | EvCalloc _ (Some h) => [RMem h]
  | EvSpiInit _ ret (Some h) => if IS_ERR_VALUE ret then [] else [RSpi h]
  | EvGpioGet _ ret (Some h) => if IS_ERR_VALUE ret then [] else [RGpio h]
  | _ => []
  end.

(** What a call releases. *)
Definition released_by (e : event) : list resource :=
  match e with
  | EvFree (Some h) => [RMem h]
  | EvSpiRemove (Some h) _ => [RSpi h]
  | EvGpioRemove (Some h) _ => [RGpio h]
  | _ => []
  end.

Definition acquisitions (t : list event) : list resource :=
  flat_map acquired_by t.
Definition releases (t : list event) : list resource :=
  flat_map released_by t.

Definition times_released (t : list event) (r : resource) : nat :=
  count_occ resource_eq_dec (releases t) r.

(** Every resource the trace acquires is released once, and nothing is
    released twice. *)
Definition released_exactly_once (t : list event) : Prop :=
  (forall r, In r (acquisitions t) -> times_released t r = 1%nat) /\
  (forall r, (times_released t r <= 1)%nat).

End Accounting.

(** ** The behaviour the specification describes *)

Section Described.

Context {hdr : ad713x_h} {P : Type} {pf : Platform P}.
Local Open Scope drv_scope.

(** Run the steps in order, stop with [FAILURE] at the first one whose
    result is an error, [SUCCESS] when none is. *)
Fixpoint until_error (steps : list (M P Z)) : M P Z :=
  match steps with
  | [] => Return SUCCESS
  | s :: rest =>
      ret <- s ;;
      if IS_ERR_VALUE ret then Return FAILURE else until_error rest
  end.

(** The per-channel setter on CH3, CH2, CH1, CH0, with two clocks of
    delay when enabled and none otherwise. *)
Definition clk_delay_per_channel (dev : ad713x_dev) (clk_delay_en : bool)
  : M P Z :=
  let mode := if clk_delay_en then DELAY_2_CLOCKS else DELAY_NONE in
  until_error
    (map (fun ch => ad713x_mag_phase_clk_delay_chan dev ch mode)
         [CH3; CH2; CH1; CH0]).

(** "Set the power-mode bit high": read the device-config register and
    write it back with the bit set. *)
Definition power_mode_bit_high (dev : ad713x_dev) : M P Z :=
  '(ret, data) <- ad713x_spi_reg_read dev AD713X_REG_DEVICE_CONFIG 0 ;;
  if IS_ERR_VALUE ret then Return FAILURE else
  ad713x_spi_reg_write dev AD713X_REG_DEVICE_CONFIG
    (Z.lor data AD713X_DEV_CONFIG_PWR_MODE_MSK).

(** The configuration sequence of the initialisation, in the order the
    specification lists it. *)
Definition init_configuration (fuel : nat) (dev : ad713x_dev)
  (init_param : ad713x_init_param) : list (M P Z) :=
  [ power_mode_bit_high dev;
    ad713x_clkout_output_en dev true;
    ad713x_ref_gain_correction_en dev true;
    ad713x_set_out_data_frame fuel dev (ip_adc_data_len init_param)
                              (ip_crc_header init_param);
    ad713x_dout_format_config dev (ip_format init_param);
    ad713x_mag_phase_clk_delay dev (ip_clk_delay_en init_param);
    until_error (map (fun ch => ad713x_wideband_bw_sel dev ch 0)
                     [CH3; CH2; CH1; CH0]) ].

(** The GPIO phase of a successful initialisation: the five lines are
    acquired, four of them driven to their configured level, and the
    reset line pulsed low then high. *)
Definition gpio_phase (dev : ad713x_dev) (init_param : ad713x_init_param)
  (r : list Z) : list event :=
  let ret n := nth n r 0 in
  [ EvGpioGet (ip_gpio_mode init_param) (ret 0%nat) (gpio_mode dev);
    EvGpioGet (ip_gpio_dclkmode init_param) (ret 1%nat)
              (gpio_dclkmode dev);
    EvGpioGet (ip_gpio_dclkio init_param) (ret 2%nat) (gpio_dclkio dev);
    EvGpioGet (ip_gpio_resetn init_param) (ret 3%nat) (gpio_resetn dev);
    EvGpioGet (ip_gpio_pnd init_param) (ret 4%nat) (gpio_pnd dev);
    EvGpioDirOut (gpio_mode dev) (ip_mode_master_nslave init_param)
                 (ret 5%nat);
    EvGpioDirOut (gpio_dclkmode dev) (ip_dclkmode_free_ngated init_param)
                 (ret 6%nat);
    EvGpioDirOut (gpio_dclkio dev) (ip_dclkio_out_nin init_param)
                 (ret 7%nat);
    EvGpioDirOut (gpio_pnd dev) (ip_pnd init_param) (ret 8%nat);
    EvGpioDirOut (gpio_resetn dev) 0 (ret 9%nat);
    EvMdelay 100;
    EvGpioSetValue (gpio_resetn dev) 1 (ret 10%nat);
    EvMdelay 100 ].

(** A row [i] of variant [id] is the first one, before the sentinel,
    that holds the pair. *)
Definition first_match (id adc_data_len crc_header i : Z) : Prop :=
  0 <= i /\
  frame_entry id i 0 = Some adc_data_len /\
  frame_entry id i 1 = Some crc_header /\
  (forall j, 0 <= j <= i -> frame_entry id j 0 <> Some INVALID) /\
  (forall j, 0 <= j < i ->
     ~ (frame_entry id j 0 = Some adc_data_len /\
        frame_entry id j 1 = Some crc_header)).

(** The masked write is a read-modify-write: one transfer that reads
    the register and, unless that transfer is an error (then the result
    is FAILURE), one that writes it back; the result is then that of the
    write. *)
Definition read_modify_write (dev : ad713x_dev) (reg_addr mask data : Z)
  (w : world P) : Prop :=
  exists ret w',
    ad713x_spi_write_mask dev reg_addr mask data w = Ok ret w' /\
    let rd := u8 (AD713X_REG_READ (u8 reg_addr)) in
    ((exists ret0 x0 r,
        IS_ERR_VALUE ret0 = true /\ ret = FAILURE /\
        trace w' = trace w ++ [EvSpiXfer (spi_desc dev) rd 0 ret0 x0 r])
     \/
     (exists ret0 x0 r v x1 y1,
        IS_ERR_VALUE ret0 = false /\
        trace w' = trace w ++
          [EvSpiXfer (spi_desc dev) rd 0 ret0 x0 r;
           EvSpiXfer (spi_desc dev) (u8 reg_addr) v ret x1 y1])).

(** The masked write leaves bit [n] of the register as it was read:
    whenever the call reads [r] and writes [v] back, the two agree at
    [n]. *)
Definition write_keeps_bit (dev : ad713x_dev) (reg_addr mask data : Z)
  (w : world P) (n : Z) : Prop :=
  forall ret w' d0 a0 z0 ret0 x0 r d1 a1 v ret1 x1 y1,
    ad713x_spi_write_mask dev reg_addr mask data w = Ok ret w' ->
    trace w' = trace w ++ [EvSpiXfer d0 a0 z0 ret0 x0 r;
                           EvSpiXfer d1 a1 v ret1 x1 y1] ->
    Z.testbit v n = Z.testbit r n.

(** The teardown of a device that [ad713x_init] has set up from the
    empty trace returns [SUCCESS] and releases what the initialisation
    acquired, in the reverse order. *)
Definition remove_reverses_init (fuel : nat)
  (init_param : ad713x_init_param) (p : P) : Prop :=
  forall d w1,
    ad713x_init fuel init_param (mkWorld p []) = Ok (SUCCESS, Some d) w1 ->
    exists w2 evs,
      ad713x_remove (Some d) w1 = Ok SUCCESS w2 /\
      trace w2 = trace w1 ++ evs /\
      releases evs = rev (acquisitions (trace w1)).

(** The events of the set-up that precedes the GPIO phase: allocations
    and the bus descriptor. *)
Definition bus_setup_event (e : event) : Prop :=
  match e with
  | EvCalloc _ _ | EvSpiInit _ _ _ | EvDescStore _ _ => True
  | _ => False
  end.

Definition transfer_event (e : event) : Prop :=
  match e with
  | EvSpiXfer _ _ _ _ _ _ => True
  | _ => False
  end.

(** A computation that, when it returns, has added bus transfers to the
    trace and nothing else. *)
Definition only_transfers {A : Type} (c : M P A) : Prop :=
  forall w a w1,
    c w = Ok a w1 ->
    exists evs, trace w1 = trace w ++ evs /\ Forall transfer_event evs.

(** The platform never reports an error when a descriptor is removed. *)
Definition removal_succeeds : Prop :=
  (forall p d, IS_ERR_VALUE (snd (plat_spi_remove p d)) = false) /\
  (forall p d, IS_ERR_VALUE (snd (plat_gpio_remove p d)) = false).

(** A setter leaves bit [n] of its register as it was read: whenever
    its two transfers read [r] and write [v] back, the two agree at
    [n]. *)
Definition setter_keeps_bit (c : M P Z) (w : world P) (n : Z) : Prop :=
  forall ret w' d0 a0 z0 ret0 x0 r d1 a1 v ret1 x1 y1,
    c w = Ok ret w' ->
    trace w' = trace w ++ [EvSpiXfer d0 a0 z0 ret0 x0 r;
                           EvSpiXfer d1 a1 v ret1 x1 y1] ->
    Z.testbit v n = Z.testbit r n.

(** The removals [ad713x_remove_gpio] makes, in its order, as far as
    there are return codes in [rets]. *)
Definition gpio_removals (dev : ad713x_dev) (rets : list Z) : list event :=
  map (fun dr => EvGpioRemove (fst dr) (snd dr))
      (combine [gpio_dclkio dev; gpio_dclkmode dev; gpio_mode dev;
                gpio_pnd dev; gpio_resetn dev] rets).



(** A removal of one of the descriptors [ds]. *)
Definition removes_one_of (ds : list ptr) (e : event) : Prop :=
  match e with
  | EvGpioRemove d _ => In d ds
  | _ => False
  end.

(** A transfer that reads or writes the register [reg]. *)
Definition register_access (reg : Z) (e : event) : Prop :=
  match e with
  | EvSpiXfer _ a _ _ _ _ =>
      a = u8 (AD713X_REG_READ (u8 reg)) \/ a = u8 reg
  | _ => False
  end.

(** A computation that, when it returns, has accessed no register but
    [reg] and called nothing else. *)
Definition accesses_only (reg : Z) (c : M P Z) : Prop :=
  forall w ret w',
    c w = Ok ret w' ->
    exists evs, trace w' = trace w ++ evs /\
                Forall (register_access reg) evs.

(** A GPIO call or a delay. *)
Definition gpio_event (e : event) : Prop :=
  match e with
  | EvGpioGet _ _ _ | EvGpioDirOut _ _ _ | EvGpioSetValue _ _ _
  | EvMdelay _ => True
  | _ => False
  end.

(** The descriptor an acquisition returned is held in one of the five
    GPIO fields of the device. *)
Definition held_by (dev : ad713x_dev) (e : event) : Prop :=
  match e with
  | EvGpioGet _ _ d =>
      In d [gpio_mode dev; gpio_dclkmode dev; gpio_dclkio dev;
            gpio_resetn dev; gpio_pnd dev]
  | _ => True
  end.

End Described.

(** ** A header and a platform to run the driver on

    An instance of the header (enumerators numbered from 0 in the order
    the driver's comments list them, negative error codes, one bit field
    per setter) and a simulated board.  They serve the worked examples
    only: the general theorems quantify over every header and
    platform. *)

Module Board.

Definition header : ad713x_h := {|
  SUCCESS := 0;
  FAILURE := -1;
  IS_ERR_VALUE := fun x => x <? 0;
  ADC_16_BIT_DATA := 0;
  ADC_24_BIT_DATA := 1;
  ADC_32_BIT_DATA := 2;
  INVALID := 3;
  NO_CRC := 0;
  CRC_6 := 1;
  CRC_8 := 2;
  LOW_POWER := 0;
  HIGH_POWER := 1;
  CH0 := 0;
  CH1 := 1;
  CH2 := 2;
  CH3 := 3;
  DELAY_NONE := 0;
  DELAY_2_CLOCKS := 2;
  AD713X_REG_DEVICE_CONFIG := 0x02;
  AD713X_REG_DEVICE_CONFIG1 := 0x10;
  AD713X_REG_DATA_PACKET_CONFIG := 0x11;
  AD713X_REG_DIGITAL_INTERFACE_CONFIG := 0x12;
  AD713X_REG_MPC_CONFIG := 0x1A;
  AD713X_REG_CHAN_DIG_FILTER_SEL := 0x1E;
  AD713X_REG_FIR_BW_SEL := 0x1F;
  AD713X_REG_READ := fun x => Z.lor (Z.shiftl 1 7) (Z.land x 0x7F);
  AD713X_DEV_CONFIG_PWR_MODE_MSK := 0x01;
  AD713X_DEV_CONFIG1_CLKOUT_EN_MSK := 0x01;
  AD713X_DEV_CONFIG1_REF_GAIN_CORR_EN_MSK := 0x02;
  AD713X_DATA_PACKET_CONFIG_FRAME_MSK := 0x70;
  AD713X_DATA_PACKET_CONFIG_FRAME_MODE :=
    fun x => Z.shiftl (Z.land x 0x7) 4;
  AD713X_DIG_INT_CONFIG_FORMAT_MSK := 0x03;
  AD713X_DIG_INT_CONFIG_FORMAT_MODE := fun x => Z.land x 0x3;
  AD713X_MPC_CLKDEL_EN_CH_MSK := fun ch => Z.shiftl 0x3 (2 * ch);
  AD713X_MPC_CLKDEL_EN_CH_MODE :=
    fun x ch => Z.shiftl (Z.land x 0x3) (2 * ch);
  AD713X_DIGFILTER_SEL_CH_MSK := fun ch => Z.shiftl 0x3 (2 * ch);
  AD713X_DIGFILTER_SEL_CH_MODE :=
    fun x ch => Z.shiftl (Z.land x 0x3) (2 * ch);
  AD713X_FIR_BW_SEL_CH_MSK := fun ch => Z.shiftl 1 ch
|}.

(** The board: a counter for fresh descriptors, the number of platform
    calls served so far, and the chip's register file. *)
Record state : Type := mkState {
  next : nat;
  tick : nat;
  regs : list (Z * Z)
}.

Definition boot : state := mkState 1 0 [].

Fixpoint reg_get (rs : list (Z * Z)) (a : Z) : Z :=
  match rs with
  | [] => 0
  | (a', v) :: rest => if a' =? a then v else reg_get rest a
  end.

(** The call served now fails when its number is in [fails]. *)
Definition failing (fails : list nat) (s : state) : bool :=
  existsb (Nat.eqb (tick s)) fails.

Definition acquire (fails : list nat) (s : state) : state * (Z * ptr) :=
  if failing fails s
  then (mkState (next s) (S (tick s)) (regs s), (-1, None))
  else (mkState (S (next s)) (S (tick s)) (regs s), (0, Some (next s))).

Definition serve (fails : list nat) (s : state) : state * Z :=
  (mkState (next s) (S (tick s)) (regs s),
   if failing fails s then -1 else 0).

Definition transfer (fails : list nat) (s : state) (buf : Z * Z)
  : state * (Z * (Z * Z)) :=
  if failing fails s
  then (mkState (next s) (S (tick s)) (regs s), (-1, buf))
  else if Z.testbit (fst buf) 7
  then (mkState (next s) (S (tick s)) (regs s),
        (0, (0, reg_get (regs s) (Z.land (fst buf) 0x7F))))
  else (mkState (next s) (S (tick s)) ((fst buf, snd buf) :: regs s),
        (0, (0, 0))).

Definition platform (fails : list nat) : Platform state := {|
  plat_calloc := fun s _ =>
    let '(s', (_, p)) := acquire fails s in (s', p);
  plat_free := fun s _ => mkState (next s) (S (tick s)) (regs s);
  plat_spi_init := fun s _ => acquire fails s;
  plat_spi_remove := fun s _ => serve fails s;
  plat_spi_write_and_read := fun s _ buf => transfer fails s buf;
  plat_gpio_get := fun s _ => acquire fails s;
  plat_gpio_remove := fun s _ => serve fails s;
  plat_gpio_direction_output := fun s _ _ => serve fails s;
  plat_gpio_set_value := fun s _ _ => serve fails s;
  plat_mdelay := fun s _ => mkState (next s) (S (tick s)) (regs s)
|}.

(** The board on which no call fails. *)
Definition faultless : Platform state := platform [].

Definition start : world state := mkWorld boot [].

(** Initialisation parameters: an AD7134 on its own bus, 24-bit frames
    with a 6-bit CRC header. *)
Definition params : ad713x_init_param := {|
  ip_spi_init_prm :=
    {| prm_max_speed_hz := 10000000; prm_chip_select := 0;
       prm_mode := 3 |};
  ip_gpio_mode := 10;
  ip_gpio_dclkmode := 11;
  ip_gpio_dclkio := 12;
  ip_gpio_resetn := 13;
  ip_gpio_pnd := 14;
  ip_mode_master_nslave := 1;
  ip_dclkmode_free_ngated := 0;
  ip_dclkio_out_nin := 1;
  ip_pnd := 1;
  ip_dev_id := 1;
  ip_adc_data_len := 1;
  ip_crc_header := 1;
  ip_format := 2;
  ip_clk_delay_en := true;
  ip_spi_common_dev := None
|}.

(** A device as a successful initialisation on the board leaves it. *)
Definition device : ad713x_dev := {|
  spi_desc := Some 2%nat; gpio_mode := Some 3%nat;
  gpio_dclkmode := Some 4%nat; gpio_dclkio := Some 5%nat;
  gpio_resetn := Some 6%nat; gpio_pnd := Some 7%nat; dev_id := 1
|}.

(** The initialisation on a board on which the calls numbered in
    [fails] fail, and the state a faultless one leaves. *)
Definition bring_up (fails : list nat)
  : outcome state (Z * option (handle * ad713x_dev)) :=
  @ad713x_init header state (platform fails) 9 params start.

Definition up : world state :=
  match bring_up [] with
  | Ok _ w => w
  | _ => start
  end.

(** The same parameters for a chip that shares the bus descriptor of
    another one. *)
Definition shared_params : ad713x_init_param := {|
  ip_spi_init_prm := ip_spi_init_prm params;
  ip_gpio_mode := ip_gpio_mode params;
  ip_gpio_dclkmode := ip_gpio_dclkmode params;
  ip_gpio_dclkio := ip_gpio_dclkio params;
  ip_gpio_resetn := ip_gpio_resetn params;
  ip_gpio_pnd := ip_gpio_pnd params;
  ip_mode_master_nslave := ip_mode_master_nslave params;
  ip_dclkmode_free_ngated := ip_dclkmode_free_ngated params;
  ip_dclkio_out_nin := ip_dclkio_out_nin params;
  ip_pnd := ip_pnd params;
  ip_dev_id := ip_dev_id params;
  ip_adc_data_len := ip_adc_data_len params;
  ip_crc_header := ip_crc_header params;
  ip_format := ip_format params;
  ip_clk_delay_en := ip_clk_delay_en params;
  ip_spi_common_dev :=
    Some {| max_speed_hz := 10000000; chip_select := 1; mode := 3;
            extra := 0 |}
|}.

(** A device of which only the mode and dclkmode lines were acquired. *)
Definition half_device : ad713x_dev := {|
  spi_desc := Some 2%nat; gpio_mode := Some 3%nat;
  gpio_dclkmode := Some 4%nat; gpio_dclkio := None;
  gpio_resetn := None; gpio_pnd := None; dev_id := 0
|}.

End Board.

(** * Properties *)

Lemma u8_range (x : Z) : 0 <= u8 x < 256.
Proof. unfold u8. apply Z.mod_pos_bound. lia. Qed.

Lemma u8_small (x : Z) : 0 <= x < 256 -> u8 x = x.
Proof. intros. unfold u8. apply Z.mod_small. lia. Qed.

Lemma u8_idem (x : Z) : u8 (u8 x) = u8 x.
Proof. apply u8_small, u8_range. Qed.

Lemma u8_testbit (x n : Z) :
  Z.testbit (u8 x) n = (n <? 8) && Z.testbit x n.
Proof.
  unfold u8. change 256 with (2 ^ 8).
  destruct (Z.ltb_spec n 8).
  - destruct (Z.neg_nonneg_cases n) as [Hn | Hn].
    + rewrite !Z.testbit_neg_r by lia. reflexivity.
    + rewrite Z.mod_pow2_bits_low by lia. reflexivity.
  - rewrite Z.mod_pow2_bits_high by lia. reflexivity.
Qed.

Lemma u32_testbit (x n : Z) :
  Z.testbit (u32 x) n = (n <? 32) && Z.testbit x n.
Proof.
  unfold u32.
  destruct (Z.ltb_spec n 32).
  - destruct (Z.neg_nonneg_cases n) as [Hn | Hn].
    + rewrite !Z.testbit_neg_r by lia. reflexivity.
    + rewrite Z.mod_pow2_bits_low by lia. reflexivity.
  - rewrite Z.mod_pow2_bits_high by lia. reflexivity.
Qed.

Section Facts.

Context {hdr : ad713x_h} {P : Type} {pf : Platform P}.

(** What [error.h] is relied on for: [FAILURE] is an error value and
    [SUCCESS] is not. *)
Hypothesis failure_is_error : IS_ERR_VALUE FAILURE = true.
Hypothesis success_is_no_error : IS_ERR_VALUE SUCCESS = false.

(** ** Register access *)

Lemma spi_write_and_read_run (desc : ptr) (buf : Z * Z) (w : world P) :
  exists p' ret x0 x1,
    plat_spi_write_and_read (plat w) desc buf = (p', (ret, (x0, x1))) /\
    spi_write_and_read desc buf w =
      Ok (ret, (u8 x0, u8 x1))
         (mkWorld p' (trace w ++
            [EvSpiXfer desc (fst buf) (snd buf) ret (u8 x0) (u8 x1)])).
Proof.
  unfold spi_write_and_read.
  destruct (plat_spi_write_and_read (plat w) desc buf)
    as [p' [ret [x0 x1]]].
  exists p', ret, x0, x1. split; reflexivity.
Qed.

Lemma reg_write_run (dev : ad713x_dev) (reg_addr reg_data : Z)
  (w : world P) :
  exists p' ret x0 x1,
    plat_spi_write_and_read (plat w) (spi_desc dev)
                            (u8 reg_addr, u8 reg_data)
      = (p', (ret, (x0, x1))) /\
    ad713x_spi_reg_write dev reg_addr reg_data w =
      Ok ret (mkWorld p' (trace w ++
        [EvSpiXfer (spi_desc dev) (u8 reg_addr) (u8 reg_data) ret
                   (u8 x0) (u8 x1)])).
Proof.
  unfold ad713x_spi_reg_write, Bind.
  destruct (spi_write_and_read_run (spi_desc dev)
              (u8 reg_addr, u8 reg_data) w)
    as (p' & ret & x0 & x1 & Hp & Hrun).
  rewrite Hrun. exists p', ret, x0, x1. split; [exact Hp | reflexivity].
Qed.

Lemma reg_read_run (dev : ad713x_dev) (reg_addr reg_data : Z)
  (w : world P) :
  exists p' ret x0 x1,
    plat_spi_write_and_read (plat w) (spi_desc dev)
                            (u8 (AD713X_REG_READ (u8 reg_addr)), 0)
      = (p', (ret, (x0, x1))) /\
    ad713x_spi_reg_read dev reg_addr reg_data w =
      Ok (if IS_ERR_VALUE ret then (FAILURE, reg_data)
          else (SUCCESS, u8 x1))
         (mkWorld p' (trace w ++
            [EvSpiXfer (spi_desc dev)
                       (u8 (AD713X_REG_READ (u8 reg_addr))) 0 ret
                       (u8 x0) (u8 x1)])).
Proof.
  unfold ad713x_spi_reg_read, Bind.
  destruct (spi_write_and_read_run (spi_desc dev)
              (u8 (AD713X_REG_READ (u8 reg_addr)), 0) w)
    as (p' & ret & x0 & x1 & Hp & Hrun).
  rewrite Hrun. exists p', ret, x0, x1. split; [exact Hp |].
  destruct (IS_ERR_VALUE ret); reflexivity.
Qed.

Lemma write_mask_run (dev : ad713x_dev) (reg_addr mask data : Z)
  (w : world P) :
  exists p1 ret1 x0 x1,
    let ev1 := EvSpiXfer (spi_desc dev)
                 (u8 (AD713X_REG_READ (u8 reg_addr))) 0 ret1
                 (u8 x0) (u8 x1) in
    (IS_ERR_VALUE ret1 = true /\
     ad713x_spi_write_mask dev reg_addr mask data w =
       Ok FAILURE (mkWorld p1 (trace w ++ [ev1])))
    \/
    (IS_ERR_VALUE ret1 = false /\
     exists p2 ret2 y0 y1,
       ad713x_spi_write_mask dev reg_addr mask data w =
         Ok ret2 (mkWorld p2 (trace w ++
           [ev1; EvSpiXfer (spi_desc dev) (u8 reg_addr)
                   (merged (u8 x1) mask data) ret2 y0 y1]))).
Proof.
  unfold ad713x_spi_write_mask, Bind.
  destruct (reg_read_run dev (u8 reg_addr) 0 w)
    as (p1 & ret1 & x0 & x1 & _ & Hrun).
  rewrite u8_idem in Hrun. rewrite Hrun.
  exists p1, ret1, x0, x1. cbv zeta.
  destruct (IS_ERR_VALUE ret1) eqn:E.
  - left. rewrite failure_is_error. split; reflexivity.
  - right. rewrite success_is_no_error. split; [reflexivity |].
    match goal with
    | |- context [ad713x_spi_reg_write ?d ?a ?v ?w1] =>
        destruct (reg_write_run d a v w1)
          as (p2 & ret2 & y0 & y1 & _ & Hw)
    end.
    rewrite Hw. cbn [trace]. rewrite !u8_idem.
    exists p2, ret2, (u8 y0), (u8 y1).
    rewrite <- app_assoc. reflexivity.
Qed.

Lemma write_mask_total (dev : ad713x_dev) (reg_addr mask data : Z)
  (w : world P) :
  exists ret w', ad713x_spi_write_mask dev reg_addr mask data w = Ok ret w'.
Proof.
  clear failure_is_error success_is_no_error.
  unfold ad713x_spi_write_mask, Bind.
  destruct (reg_read_run dev (u8 reg_addr) 0 w)
    as (p1 & ret1 & x0 & x1 & _ & Hrun).
  rewrite Hrun.
  destruct (IS_ERR_VALUE ret1);
    (match goal with
     | |- context [IS_ERR_VALUE ?r] => destruct (IS_ERR_VALUE r)
     end; [unfold Return; eauto |]);
    match goal with
    | |- context [ad713x_spi_reg_write ?d ?a ?v ?w1] =>
        destruct (reg_write_run d a v w1)
          as (p2 & ret2 & y0 & y1 & _ & Hw)
    end; rewrite Hw; eauto.
Qed.

Lemma merged_testbit (r mask data n : Z) :
  Z.testbit (merged r mask data) n =
  (n <? 8) && ((Z.testbit r n && negb (Z.testbit (u32 mask) n))
               || Z.testbit (u8 data) n).
Proof.
  unfold merged.
  rewrite u8_testbit, Z.lor_spec, u8_testbit, Z.land_spec, u32_testbit.
  destruct (Z.ltb_spec n 8) as [H8 | H8]; cbn [andb]; [| reflexivity].
  destruct (Z.neg_nonneg_cases n) as [Hn | Hn].
  - rewrite !Z.testbit_neg_r by lia. reflexivity.
  - rewrite Z.lnot_spec by lia.
    replace (n <? 32) with true by (symmetry; apply Z.ltb_lt; lia).
    reflexivity.
Qed.

(** C5. A register access is one two-byte transfer.  The write sends the
    address byte, then the data byte.  The read sends the read-encoded
    address, then a zero byte; when the transfer is not an error it
    returns SUCCESS with the second byte the bus left in the buffer stored
    in [*reg_data], and when it is an error it returns FAILURE with
    [*reg_data] as it was. *)
Theorem register_access_is_one_transfer (dev : ad713x_dev)
  (reg_addr reg_data : Z) (w : world P) :
  (exists p' ret x0 x1,
     plat_spi_write_and_read (plat w) (spi_desc dev)
                             (u8 reg_addr, u8 reg_data)
       = (p', (ret, (x0, x1))) /\
     ad713x_spi_reg_write dev reg_addr reg_data w =
       Ok ret (mkWorld p' (trace w ++
         [EvSpiXfer (spi_desc dev) (u8 reg_addr) (u8 reg_data) ret
                    (u8 x0) (u8 x1)]))) /\
  (exists p' ret x0 x1,
     plat_spi_write_and_read (plat w) (spi_desc dev)
                             (u8 (AD713X_REG_READ (u8 reg_addr)), 0)
       = (p', (ret, (x0, x1))) /\
     ad713x_spi_reg_read dev reg_addr reg_data w =
       Ok (if IS_ERR_VALUE ret then (FAILURE, reg_data)
           else (SUCCESS, u8 x1))
          (mkWorld p' (trace w ++
             [EvSpiXfer (spi_desc dev)
                        (u8 (AD713X_REG_READ (u8 reg_addr))) 0 ret
                        (u8 x0) (u8 x1)]))).
Proof.
  split.
  - apply reg_write_run.
  - apply reg_read_run.
Qed.

(** C2, as the code has it.  [ad713x_spi_write_mask] is a
    read-modify-write, and when it reads [r] and writes [v] back, [v]
    agrees with [r] at every bit position that is outside the mask and at
    which [data] has no bit set.  (The code ORs [data] into the register
    as it is given, so a bit of [data] outside the mask is written.) *)
Theorem write_mask_keeps_unmasked_bits (dev : ad713x_dev)
  (reg_addr mask data : Z) (w : world P) (n : Z) :
  Z.testbit (u32 mask) n = false ->
  Z.testbit (u8 data) n = false ->
  read_modify_write dev reg_addr mask data w /\
  write_keeps_bit dev reg_addr mask data w n.
Proof.
  intros Hmask Hdata.
  destruct (write_mask_run dev reg_addr mask data w)
    as (p1 & r1 & b0 & b1 & [[X H] | [X (p2 & r2 & c0 & c1 & H)]]).
  - split.
    + exists FAILURE. eexists. split; [exact H |].
      left. exists r1, (u8 b0), (u8 b1). repeat split. exact X.
    + intros ret w' d0 a0 z0 ret0 x0 r d1 a1 v ret1 x1' y1 Hrun Htrace.
      rewrite H in Hrun. injection Hrun as <- <-.
      cbn [trace] in Htrace. apply app_inv_head in Htrace.
      discriminate Htrace.
  - split.
    + exists r2. eexists. split; [exact H |].
      right. exists r1, (u8 b0), (u8 b1). do 3 eexists.
      split; [exact X | reflexivity].
    + intros ret w' d0 a0 z0 ret0 x0 r d1 a1 v ret1 x1' y1 Hrun Htrace.
      rewrite H in Hrun. injection Hrun as <- <-.
      cbn [trace] in Htrace. apply app_inv_head in Htrace.
      injection Htrace as; subst.
      rewrite merged_testbit, Hmask, Hdata.
      rewrite u8_testbit.
      destruct (n <? 8); cbn; [| reflexivity].
      destruct (Z.testbit b1 n); reflexivity.
Qed.

(** ** Power mode *)

(** C6. With LOW_POWER the setter is the masked write of 0 to the
    power-mode field of the device-config register, with HIGH_POWER the
    masked write of 1 to the same field, and with any other mode it
    returns FAILURE and leaves the platform and the trace untouched. *)
Theorem set_power_mode_cases (dev : ad713x_dev) (mode : Z) (w : world P) :
  LOW_POWER <> HIGH_POWER ->
  (mode = LOW_POWER ->
   ad713x_set_power_mode dev mode w =
   ad713x_spi_write_mask dev AD713X_REG_DEVICE_CONFIG
                         AD713X_DEV_CONFIG_PWR_MODE_MSK 0 w) /\
  (mode = HIGH_POWER ->
   ad713x_set_power_mode dev mode w =
   ad713x_spi_write_mask dev AD713X_REG_DEVICE_CONFIG
                         AD713X_DEV_CONFIG_PWR_MODE_MSK 1 w) /\
  (mode <> LOW_POWER -> mode <> HIGH_POWER ->
   ad713x_set_power_mode dev mode w = Ok FAILURE w).
Proof.
  intros Hdistinct. unfold ad713x_set_power_mode. repeat split.
  - intros ->. rewrite Z.eqb_refl. reflexivity.
  - intros ->.
    destruct (Z.eqb_spec HIGH_POWER LOW_POWER) as [E | _].
    + symmetry in E. contradiction.
    + rewrite Z.eqb_refl. reflexivity.
  - intros Hlow Hhigh.
    destruct (Z.eqb_spec mode LOW_POWER); [contradiction |].
    destruct (Z.eqb_spec mode HIGH_POWER); [contradiction |].
    reflexivity.
Qed.

(** ** Teardown of a null device *)

(** C10. Called with a null pointer, [ad713x_remove] returns FAILURE;
    the platform is not called, so nothing is removed or freed. *)
Theorem remove_null_device (w : world P) :
  ad713x_remove None w = Ok FAILURE w.
Proof. reflexivity. Qed.

(** ** The frame table *)

(** Inside [3][9][2] every entry exists. *)
Lemma frame_entry_in_bounds (id i k : Z) :
  0 <= id < 3 -> 0 <= i < 9 -> 0 <= k < 2 ->
  exists e, frame_entry id i k = Some e.
Proof.
  intros Hid Hi Hk.
  assert (Eid : id = 0 \/ id = 1 \/ id = 2) by lia.
  assert (Ek : k = 0 \/ k = 1) by lia.
  assert (Ei : i = 0 \/ i = 1 \/ i = 2 \/ i = 3 \/ i = 4 \/ i = 5 \/
               i = 6 \/ i = 7 \/ i = 8) by lia.
  clear Hid Hi Hk.
  repeat match goal with H : _ \/ _ |- _ => destruct H end; subst;
    eexists; reflexivity.
Qed.

(** The table is a full [3][9][2] block. *)
Lemma frame_table_shape :
  length ad713x_output_data_frame = 3%nat /\
  Forall (fun rows => length rows = 9%nat /\
                      Forall (fun e => length e = 2%nat) rows)
         ad713x_output_data_frame.
Proof.
  split; [reflexivity |].
  repeat (constructor; [split; [reflexivity | repeat constructor] |]).
  constructor.
Qed.

(** Outside, there is none. *)
Lemma frame_entry_out_of_bounds (id i k : Z) :
  ~ (0 <= id < 3 /\ 0 <= i < 9 /\ 0 <= k < 2) ->
  frame_entry id i k = None.
Proof.
  intros H. unfold frame_entry.
  destruct (Z.ltb_spec id 0); [reflexivity |].
  destruct (Z.ltb_spec i 0); [reflexivity |].
  destruct (Z.ltb_spec k 0); [reflexivity |]. cbn [orb].
  destruct frame_table_shape as [L3 Hrows].
  rewrite Forall_forall in Hrows.
  destruct (nth_error ad713x_output_data_frame (Z.to_nat id))
    as [rows |] eqn:Erows; [| reflexivity].
  assert (Hid : (Z.to_nat id < 3)%nat).
  { rewrite <- L3. apply nth_error_Some. congruence. }
  destruct (Hrows rows (nth_error_In _ _ Erows)) as [L9 Hes].
  rewrite Forall_forall in Hes.
  destruct (nth_error rows (Z.to_nat i)) as [e |] eqn:Ee; [| reflexivity].
  assert (Hi : (Z.to_nat i < 9)%nat).
  { rewrite <- L9. apply nth_error_Some. congruence. }
  apply nth_error_None.
  rewrite (Hes e (nth_error_In _ _ Ee)). lia.
Qed.

(** The loop entered at row [i], when no row before [i] is the sentinel
    or holds the pair, and the sentinel of the variant is at row [s]. *)
Lemma out_data_frame_loop_run (dev : ad713x_dev)
  (id adc_data_len crc_header s : Z) (w : world P) :
  0 <= id < 3 -> 0 <= s < 9 ->
  frame_entry id s 0 = Some INVALID ->
  forall (fuel : nat) (i : Z),
    0 <= i <= s -> (Z.to_nat (s - i) < fuel)%nat ->
    (forall j, 0 <= j < i ->
       frame_entry id j 0 <> Some INVALID /\
       ~ (frame_entry id j 0 = Some adc_data_len /\
          frame_entry id j 1 = Some crc_header)) ->
    (exists m,
       first_match id adc_data_len crc_header m /\
       out_data_frame_loop fuel dev id i adc_data_len crc_header w =
       ad713x_spi_write_mask dev AD713X_REG_DATA_PACKET_CONFIG
         AD713X_DATA_PACKET_CONFIG_FRAME_MSK
         (AD713X_DATA_PACKET_CONFIG_FRAME_MODE m) w)
    \/
    ((forall m, ~ first_match id adc_data_len crc_header m) /\
     out_data_frame_loop fuel dev id i adc_data_len crc_header w =
     Ok FAILURE w).
Proof.
  intros Hid Hs Hsentinel fuel.
  induction fuel as [| fuel IH]; intros i Hi Hfuel Hbefore; [lia |].
  cbn [out_data_frame_loop].
  destruct (frame_entry_in_bounds id i 0) as [e0 E0]; try lia.
  destruct (frame_entry_in_bounds id i 1) as [e1 E1]; try lia.
  rewrite E0.
  assert (Hnext : e0 <> INVALID ->
            ~ (frame_entry id i 0 = Some adc_data_len /\
               frame_entry id i 1 = Some crc_header) ->
            (exists m,
               first_match id adc_data_len crc_header m /\
               out_data_frame_loop fuel dev id (u8 (i + 1))
                 adc_data_len crc_header w =
               ad713x_spi_write_mask dev AD713X_REG_DATA_PACKET_CONFIG
                 AD713X_DATA_PACKET_CONFIG_FRAME_MSK
                 (AD713X_DATA_PACKET_CONFIG_FRAME_MODE m) w)
            \/
            ((forall m, ~ first_match id adc_data_len crc_header m) /\
             out_data_frame_loop fuel dev id (u8 (i + 1))
               adc_data_len crc_header w = Ok FAILURE w)).
  { intros Hne Hnomatch.
    assert (i < s).
    { destruct (Z.eq_dec i s) as [-> |]; [| lia].
      rewrite Hsentinel in E0. congruence. }
    rewrite u8_small by lia.
    apply IH; [lia | lia |].
    intros j Hj. destruct (Z.eq_dec j i) as [-> |].
    - split; [congruence | exact Hnomatch].
    - apply Hbefore. lia. }
  destruct (Z.eqb_spec e0 INVALID) as [Einv | Einv]; cbn [negb].
  - right. split; [| reflexivity].
    intros m (Hm0 & Hm1 & Hm2 & Hm3 & Hm4).
    destruct (Z.lt_ge_cases m i).
    + apply (Hbefore m); [lia |]. split; assumption.
    + apply (Hm3 i); [lia |]. congruence.
  - destruct (Z.eqb_spec adc_data_len e0) as [Elen | Elen].
    + rewrite E1.
      destruct (Z.eqb_spec crc_header e1) as [Ecrc | Ecrc].
      * left. exists i. split; [| reflexivity].
        repeat split; try congruence; try lia.
        -- intros j Hj. destruct (Z.eq_dec j i) as [-> |].
           ++ congruence.
           ++ apply Hbefore. lia.
        -- intros j Hj. apply Hbefore. lia.
      * apply Hnext; [exact Einv |]. intros [_ H]. congruence.
    + apply Hnext; [exact Einv |]. intros [H _]. congruence.
Qed.

(** Each variant's rows end with the sentinel. *)
Lemma frame_sentinels :
  frame_entry 0 8 0 = Some INVALID /\
  frame_entry 1 6 0 = Some INVALID /\
  frame_entry 2 3 0 = Some INVALID.
Proof. repeat split; reflexivity. Qed.

Lemma frame_sentinel_of (id : Z) :
  id = 0 \/ id = 1 \/ id = 2 ->
  exists s, 0 <= s < 9 /\ frame_entry id s 0 = Some INVALID.
Proof.
  destruct frame_sentinels as (H0 & H1 & H2).
  intros [-> | [-> | ->]];
    [exists 8 | exists 6 | exists 3]; split; (lia || assumption).
Qed.

Lemma out_data_frame_run (fuel : nat) (dev : ad713x_dev)
  (adc_data_len crc_header : Z) (w : world P) :
  dev_id dev = 0 \/ dev_id dev = 1 \/ dev_id dev = 2 ->
  (9 <= fuel)%nat ->
  (exists i,
     first_match (dev_id dev) adc_data_len crc_header i /\
     ad713x_set_out_data_frame fuel dev adc_data_len crc_header w =
     ad713x_spi_write_mask dev AD713X_REG_DATA_PACKET_CONFIG
       AD713X_DATA_PACKET_CONFIG_FRAME_MSK
       (AD713X_DATA_PACKET_CONFIG_FRAME_MODE i) w)
  \/
  ((forall i, ~ first_match (dev_id dev) adc_data_len crc_header i) /\
   ad713x_set_out_data_frame fuel dev adc_data_len crc_header w =
   Ok FAILURE w).
Proof.
  intros Hid Hfuel.
  destruct (frame_sentinel_of _ Hid) as (s & Hs & Hsentinel).
  unfold ad713x_set_out_data_frame.
  rewrite (u8_small (dev_id dev)) by lia.
  apply (out_data_frame_loop_run dev (dev_id dev) adc_data_len crc_header
           s w); try assumption; try lia.
Qed.

Lemma first_match_unique (id adc_data_len crc_header i i' : Z) :
  first_match id adc_data_len crc_header i ->
  first_match id adc_data_len crc_header i' ->
  i = i'.
Proof.
  intros (Hi & Hlen & Hcrc & _ & Hfirst) (Hi' & Hlen' & Hcrc' & _ & Hfirst').
  destruct (Z.lt_trichotomy i i') as [Hlt | [Heq | Hgt]].
  - exfalso. apply (Hfirst' i); [lia | split; assumption].
  - exact Heq.
  - exfalso. apply (Hfirst i'); [lia | split; assumption].
Qed.

(** C1. For a device of variant 0, 1 or 2, either there is a row [i],
    and only one, that is the first before the sentinel to hold the
    pair, and the setter is the masked write of frame mode [i] to the
    frame field of the data-packet-config register; or no row is, and
    the setter returns FAILURE with the platform and the trace
    untouched. *)
Theorem out_data_frame_selects_first_match (fuel : nat)
  (dev : ad713x_dev) (adc_data_len crc_header : Z) (w : world P) :
  dev_id dev = 0 \/ dev_id dev = 1 \/ dev_id dev = 2 ->
  (9 <= fuel)%nat ->
  (exists i,
     first_match (dev_id dev) adc_data_len crc_header i /\
     (forall i', first_match (dev_id dev) adc_data_len crc_header i' ->
                 i' = i) /\
     ad713x_set_out_data_frame fuel dev adc_data_len crc_header w =
     ad713x_spi_write_mask dev AD713X_REG_DATA_PACKET_CONFIG
       AD713X_DATA_PACKET_CONFIG_FRAME_MSK
       (AD713X_DATA_PACKET_CONFIG_FRAME_MODE i) w)
  \/
  ((forall i, ~ first_match (dev_id dev) adc_data_len crc_header i) /\
   ad713x_set_out_data_frame fuel dev adc_data_len crc_header w =
   Ok FAILURE w).
Proof.
  intros Hid Hfuel.
  destruct (out_data_frame_run fuel dev adc_data_len crc_header w
              Hid Hfuel) as [(i & Hi & Hrun) | Hnone].
  - left. exists i. split; [exact Hi |]. split; [| exact Hrun].
    intros i' Hi'. apply (first_match_unique _ _ _ _ _ Hi' Hi).
  - right. exact Hnone.
Qed.

(** C9. For a device of variant 0, 1 or 2 the scan returns: with fuel
    for nine iterations it neither runs out of fuel nor reads
    [ad713x_output_data_frame] outside [3][9][2] (either would not be an
    [Ok] outcome), whatever the pair.  Each of the three variants has its
    sentinel inside the table, at rows 8, 6 and 3. *)
Theorem out_data_frame_scan_is_safe (fuel : nat) (dev : ad713x_dev)
  (adc_data_len crc_header : Z) (w : world P) :
  dev_id dev = 0 \/ dev_id dev = 1 \/ dev_id dev = 2 ->
  (9 <= fuel)%nat ->
  (exists ret w',
     ad713x_set_out_data_frame fuel dev adc_data_len crc_header w =
     Ok ret w') /\
  frame_entry 0 8 0 = Some INVALID /\
  frame_entry 1 6 0 = Some INVALID /\
  frame_entry 2 3 0 = Some INVALID.
Proof.
  intros Hid Hfuel. split; [| apply frame_sentinels].
  destruct (out_data_frame_run fuel dev adc_data_len crc_header w
              Hid Hfuel) as [(i & _ & H) | [_ H]]; rewrite H.
  - apply write_mask_total.
  - eauto.
Qed.

(** ** Clock delay *)

Lemma s8_small (x : Z) : -128 <= x <= 127 -> s8 x = x.
Proof. intros. unfold s8. rewrite Z.mod_small by lia. lia. Qed.

(** The loop over [i = CH3 .. 0], when the channels are numbered 0 to 3,
    is the body at 3, 2, 1, 0. *)
Lemma count_down_channels (body : Z -> M P Z) (w : world P) :
  CH0 = 0 -> CH1 = 1 -> CH2 = 2 -> CH3 = 3 ->
  count_down (Z.to_nat (s8 CH3 + 1)) body w =
  until_error (map body [CH3; CH2; CH1; CH0]) w.
Proof.
  intros -> -> -> ->. reflexivity.
Qed.

(** C8. With the channels numbered 0 to 3 and the two delay modes
    representable in an [int8_t], the deprecated all-channel function is
    the per-channel function run on CH3, CH2, CH1, CH0 in that order, with
    DELAY_2_CLOCKS when enabled and DELAY_NONE otherwise, stopping with
    FAILURE at the first call that reports an error and returning SUCCESS
    when none does: the two leave the same outcome, hence the same
    trace of transfers, from every state. *)
Theorem clk_delay_is_per_channel (dev : ad713x_dev) (clk_delay_en : bool)
  (w : world P) :
  CH0 = 0 -> CH1 = 1 -> CH2 = 2 -> CH3 = 3 ->
  -128 <= DELAY_NONE <= 127 ->
  -128 <= DELAY_2_CLOCKS <= 127 ->
  ad713x_mag_phase_clk_delay dev clk_delay_en w =
  clk_delay_per_channel dev clk_delay_en w.
Proof.
  intros H0 H1 H2 H3 Hnone Htwo.
  unfold ad713x_mag_phase_clk_delay, clk_delay_per_channel.
  rewrite count_down_channels by assumption.
  rewrite !s8_small by assumption.
  unfold ad713x_mag_phase_clk_delay_chan.
  destruct clk_delay_en; reflexivity.
Qed.

(** ** Teardown *)

Lemma bind_ok {A B : Type} (c : M P A) (k : A -> M P B) (w w1 : world P)
  (a : A) :
  c w = Ok a w1 -> Bind c k w = k a w1.
Proof. intros H. unfold Bind. rewrite H. reflexivity. Qed.

Lemma remove_if_succeeds (cond desc : ptr) (k : M P Z) (w : world P)
  (c : handle) :
  removal_succeeds -> cond = Some c ->
  exists p' ret,
    remove_if cond desc k w =
    k (mkWorld p' (trace w ++ [EvGpioRemove desc ret])).
Proof.
  intros [_ Hgpio] ->. unfold remove_if, gpio_remove, Bind. cbn [is_null negb].
  specialize (Hgpio (plat w) desc).
  destruct (plat_gpio_remove (plat w) desc) as [p' ret].
  cbn [snd] in Hgpio. rewrite Hgpio. exists p', ret. reflexivity.
Qed.

(** C4, as the code has it.  For a device whose SPI descriptor and five
    GPIO descriptors are set, on a platform whose removal calls succeed,
    [ad713x_remove] returns SUCCESS after releasing, each once and in this
    order: the SPI descriptor, then the GPIO lines dclkio, dclkmode, mode,
    pnd, resetn, then the device structure. *)
Theorem remove_releases_in_order (h : handle) (dev : ad713x_dev)
  (w : world P) (s g1 g2 g3 g4 g5 : handle) :
  removal_succeeds ->
  spi_desc dev = Some s ->
  gpio_mode dev = Some g1 ->
  gpio_dclkmode dev = Some g2 ->
  gpio_dclkio dev = Some g3 ->
  gpio_resetn dev = Some g4 ->
  gpio_pnd dev = Some g5 ->
  exists w' evs,
    ad713x_remove (Some (h, dev)) w = Ok SUCCESS w' /\
    trace w' = trace w ++ evs /\
    releases evs =
      [RSpi s; RGpio g3; RGpio g2; RGpio g1; RGpio g5; RGpio g4; RMem h].
Proof.
  intros Hok Hs H1 H2 H3 H4 H5.
  unfold ad713x_remove, spi_remove, free, Bind.
  pose proof (proj1 Hok (plat w) (spi_desc dev)) as Hspi.
  destruct (plat_spi_remove (plat w) (spi_desc dev)) as [p0 r0].
  cbn [snd] in Hspi. rewrite Hspi.
  unfold ad713x_remove_gpio.
  edestruct (remove_if_succeeds (gpio_dclkio dev) (gpio_dclkio dev))
    as (pa & ra & Ea); [exact Hok | exact H3 |]. rewrite Ea; clear Ea.
  edestruct (remove_if_succeeds (gpio_dclkio dev) (gpio_dclkmode dev))
    as (pb & rb & Eb); [exact Hok | exact H3 |]. rewrite Eb; clear Eb.
  edestruct (remove_if_succeeds (gpio_mode dev) (gpio_mode dev))
    as (pc & rc & Ec); [exact Hok | exact H1 |]. rewrite Ec; clear Ec.
  edestruct (remove_if_succeeds (gpio_pnd dev) (gpio_pnd dev))
    as (pd & rd & Ed); [exact Hok | exact H5 |]. rewrite Ed; clear Ed.
  edestruct (remove_if_succeeds (gpio_resetn dev) (gpio_resetn dev))
    as (pe & re & Ee); [exact Hok | exact H4 |]. rewrite Ee; clear Ee.
  unfold Return. rewrite success_is_no_error. cbn [plat trace].
  eexists. eexists. split; [reflexivity |]. cbn [trace].
  rewrite <- !app_assoc. cbn [app].
  split; [reflexivity |].
  rewrite Hs, H1, H2, H3, H4, H5. reflexivity.
Qed.

(** ** Initialisation *)

Lemma bind_inv {A B : Type} (c : M P A) (k : A -> M P B)
  (w w' : world P) (b : B) :
  Bind c k w = Ok b w' ->
  exists a w1, c w = Ok a w1 /\ k a w1 = Ok b w'.
Proof.
  unfold Bind. destruct (c w) as [a w1 | f |]; try discriminate.
  intros H. exists a, w1. split; [reflexivity | exact H].
Qed.

Ltac driver_step H a w1 E :=
  apply bind_inv in H as (a & w1 & E & H).

Lemma error_dev_none (h : handle) (d : ad713x_dev) (w w' : world P)
  (r : Z) (x : handle * ad713x_dev) :
  error_dev h d w <> Ok (r, Some x) w'.
Proof.
  unfold error_dev, Bind, Return.
  destruct (ad713x_remove (Some (h, d)) w); congruence.
Qed.

Lemma error_gpio_none (h : handle) (d : ad713x_dev) (w w' : world P)
  (r : Z) (x : handle * ad713x_dev) :
  error_gpio h d w <> Ok (r, Some x) w'.
Proof.
  unfold error_gpio, Bind.
  destruct (ad713x_remove_gpio d w); try congruence.
  apply error_dev_none.
Qed.

Ltac platform_call H :=
  match type of H with
  | context [plat_gpio_get ?p ?a] =>
      destruct (plat_gpio_get p a) as [? [? ?]]
  | context [plat_gpio_direction_output ?p ?a ?b] =>
      destruct (plat_gpio_direction_output p a b) as [? ?]
  | context [plat_gpio_set_value ?p ?a ?b] =>
      destruct (plat_gpio_set_value p a b) as [? ?]
  end;
  cbn [plat trace] in H.

Ltac error_check H :=
  match type of H with
  | context [IS_ERR_VALUE ?r] =>
      let E := fresh "E" in
      destruct (IS_ERR_VALUE r) eqn:E
  end.

(** A GPIO set-up that does not report an error has run all of its
    thirteen platform calls. *)
Lemma init_gpio_success (dev dev' : ad713x_dev)
  (init_param : ad713x_init_param) (w w' : world P) (ret : Z) :
  ad713x_init_gpio dev init_param w = Ok (ret, dev') w' ->
  IS_ERR_VALUE ret = false ->
  exists rets,
    trace w' = trace w ++ gpio_phase dev' init_param rets /\
    spi_desc dev' = spi_desc dev /\ dev_id dev' = dev_id dev.
Proof.
  intros H Hret.
  unfold ad713x_init_gpio, Bind, Return, gpio_get, gpio_direction_output,
    gpio_set_value, mdelay in H.
  do 11 (platform_call H; error_check H;
         [injection H as <- _ _; congruence |]).
  injection H as <- <- <-.
  refine (ex_intro _ [_; _; _; _; _; _; _; _; _; _; _] _).
  cbn [trace]. rewrite <- !app_assoc. cbn.
  repeat split.
Qed.

Lemma reg_write_u8 (dev : ad713x_dev) (reg_addr v : Z) (w : world P) :
  ad713x_spi_reg_write dev reg_addr (u8 v) w =
  ad713x_spi_reg_write dev reg_addr v w.
Proof. unfold ad713x_spi_reg_write. rewrite u8_idem. reflexivity. Qed.

Ltac abort_or_go H E :=
  match type of H with
  | context [IS_ERR_VALUE ?r] =>
      destruct (IS_ERR_VALUE r) eqn:E;
      [exfalso; revert H; apply error_gpio_none |]
  end.

Lemma init_after_spi_success (fuel : nat) (h h' : handle)
  (dev dev' : ad713x_dev) (init_param : ad713x_init_param)
  (w w' : world P) (r : Z) :
  CH0 = 0 -> CH1 = 1 -> CH2 = 2 -> CH3 = 3 ->
  init_after_spi fuel h dev init_param w = Ok (r, Some (h', dev')) w' ->
  r = SUCCESS /\ h' = h /\ spi_desc dev' = spi_desc dev /\
  exists rets w_gpio,
    trace w_gpio = trace w ++ gpio_phase dev' init_param rets /\
    until_error (init_configuration fuel dev' init_param) w_gpio =
      Ok SUCCESS w'.
Proof.
  intros C0 C1 C2 C3 H. unfold init_after_spi in H.
  driver_step H a1 w1 E1. destruct a1 as [ret1 dev1].
  abort_or_go H X1.
  driver_step H a2 w2 E2. destruct a2 as [ret2 data].
  abort_or_go H X2.
  driver_step H ret3 w3 E3. abort_or_go H X3.
  driver_step H ret4 w4 E4. abort_or_go H X4.
  driver_step H ret5 w5 E5. abort_or_go H X5.
  driver_step H ret6 w6 E6. abort_or_go H X6.
  driver_step H ret7 w7 E7. abort_or_go H X7.
  driver_step H ret8 w8 E8. abort_or_go H X8.
  driver_step H ret9 w9 E9. abort_or_go H X9.
  injection H as <- <- <- <-.
  destruct (init_gpio_success _ _ _ _ _ _ E1 X1) as (rets & Ht & Hs & Hi).
  repeat split; [exact Hs |].
  exists rets, w1. split; [exact Ht |].
  cbn [until_error init_configuration].
  unfold power_mode_bit_high.
  unfold ad713x_init_chan_bw in E9.
  rewrite count_down_channels in E9 by assumption.
  unfold Bind. rewrite E2, X2, <- reg_write_u8, E3, X3, E4, X4, E5, X5.
  rewrite E6, X6, E7, X7, E8, X8, E9, X9.
  reflexivity.
Qed.

Lemma calloc_run (o : object) (w w1 : world P) (p : ptr) :
  calloc o w = Ok p w1 -> trace w1 = trace w ++ [EvCalloc o p].
Proof.
  unfold calloc. destruct (plat_calloc (plat w) o) as [p' r].
  intros H. injection H as <- <-. reflexivity.
Qed.

Lemma spi_init_run (prm : spi_init_param) (w w1 : world P) (ret : Z)
  (d : ptr) :
  spi_init prm w = Ok (ret, d) w1 ->
  trace w1 = trace w ++ [EvSpiInit prm ret d].
Proof.
  unfold spi_init. destruct (plat_spi_init (plat w) prm) as [p' [r d']].
  intros H. injection H as <- <- <-. reflexivity.
Qed.

(** The configuration steps only talk to the bus. *)

Lemma only_transfers_ret {A : Type} (a : A) :
  only_transfers (Return (P := P) a).
Proof.
  intros w a' w1 H. injection H as <- <-.
  exists []. split; [symmetry; apply app_nil_r | constructor].
Qed.

Lemma only_transfers_bind {A B : Type} (c : M P A) (k : A -> M P B) :
  only_transfers c -> (forall a, only_transfers (k a)) ->
  only_transfers (Bind c k).
Proof.
  intros Hc Hk w b w2 H.
  apply bind_inv in H as (a & w1 & E & H).
  destruct (Hc _ _ _ E) as (e1 & T1 & F1).
  destruct (Hk a _ _ _ H) as (e2 & T2 & F2).
  exists (e1 ++ e2). split.
  - rewrite T2, T1, app_assoc. reflexivity.
  - apply Forall_app. split; assumption.
Qed.

Lemma only_transfers_write_mask (dev : ad713x_dev)
  (reg_addr mask data : Z) :
  only_transfers (ad713x_spi_write_mask dev reg_addr mask data).
Proof.
  intros w ret w1 H.
  destruct (write_mask_run dev reg_addr mask data w)
    as (p1 & r1 & b0 & b1 & [[_ E] | [_ (p2 & r2 & c0 & c1 & E)]]);
    rewrite E in H; injection H as <- <-; cbn [trace];
    eexists; (split; [reflexivity |]); repeat constructor.
Qed.

Lemma only_transfers_until_error (steps : list (M P Z)) :
  Forall only_transfers steps -> only_transfers (until_error steps).
Proof.
  induction 1 as [| s rest Hs Hrest IH]; cbn [until_error].
  - apply only_transfers_ret.
  - apply only_transfers_bind; [exact Hs |].
    intros ret. destruct (IS_ERR_VALUE ret);
      [apply only_transfers_ret | exact IH].
Qed.

Lemma only_transfers_count_down (n : nat) (body : Z -> M P Z) :
  (forall i, only_transfers (body i)) ->
  only_transfers (count_down n body).
Proof.
  intros Hbody. induction n as [| n IH]; cbn [count_down].
  - apply only_transfers_ret.
  - apply only_transfers_bind; [apply Hbody |].
    intros ret. destruct (IS_ERR_VALUE ret);
      [apply only_transfers_ret | exact IH].
Qed.

Lemma only_transfers_out_data_frame (fuel : nat) (dev : ad713x_dev)
  (adc_data_len crc_header : Z) :
  only_transfers
    (ad713x_set_out_data_frame fuel dev adc_data_len crc_header).
Proof.
  unfold ad713x_set_out_data_frame.
  generalize 0 as i. generalize (u8 (dev_id dev)) as id.
  induction fuel as [| fuel IH]; intros id i; cbn [out_data_frame_loop].
  - intros w a w1 H. discriminate H.
  - destruct (frame_entry id i 0) as [e0 |];
      [| intros w a w1 H; discriminate H].
    destruct (negb (e0 =? INVALID)); [| apply only_transfers_ret].
    destruct (adc_data_len =? e0); [| apply IH].
    destruct (frame_entry id i 1) as [e1 |];
      [| intros w a w1 H; discriminate H].
    destruct (crc_header =? e1);
      [apply only_transfers_write_mask | apply IH].
Qed.

Lemma only_transfers_power_mode_bit_high (dev : ad713x_dev) :
  only_transfers (power_mode_bit_high dev).
Proof.
  intros w ret w2 H. unfold power_mode_bit_high in H.
  driver_step H a w1 E. destruct a as [ret1 data].
  destruct (reg_read_run dev AD713X_REG_DEVICE_CONFIG 0 w)
    as (p1 & r1 & x0 & x1 & _ & E').
  rewrite E' in E. injection E as _ <-.
  destruct (IS_ERR_VALUE ret1).
  - injection H as <- <-. cbn [trace].
    eexists; (split; [reflexivity |]); repeat constructor.
  - match type of H with
    | ad713x_spi_reg_write ?d ?a ?v ?w0 = _ =>
        destruct (reg_write_run d a v w0)
          as (p2 & r2 & y0 & y1 & _ & E2)
    end.
    rewrite E2 in H. injection H as <- <-. cbn [trace].
    rewrite <- app_assoc.
    eexists; (split; [reflexivity |]); repeat constructor.
Qed.

Lemma only_transfers_init_configuration (fuel : nat) (dev : ad713x_dev)
  (init_param : ad713x_init_param) :
  Forall only_transfers (init_configuration fuel dev init_param).
Proof.
  unfold init_configuration.
  repeat (apply Forall_cons || apply Forall_nil).
  - apply only_transfers_power_mode_bit_high.
  - apply only_transfers_write_mask.
  - apply only_transfers_write_mask.
  - apply only_transfers_out_data_frame.
  - apply only_transfers_write_mask.
  - apply only_transfers_count_down. intros i.
    apply only_transfers_write_mask.
  - apply only_transfers_until_error.
    repeat (apply Forall_cons || apply Forall_nil);
      apply only_transfers_write_mask.
Qed.

(** C7. When [ad713x_init] stores a device it returns SUCCESS, and its
    trace is, in this order: the allocation and bus set-up; the GPIO
    phase, in which the five lines are acquired and the reset line is
    driven low, then high; and bus transfers only, which are those of the
    configuration sequence run from the state the GPIO phase left: power
    mode bit high, CLKOUT enabled, reference gain correction enabled,
    output data frame from the parameters, DOUT format, clock delay,
    wideband option 0 on CH3, CH2, CH1, CH0, none of them reporting an
    error.  (The channels are taken to be numbered 0 to 3.) *)
Theorem init_success_order (fuel : nat) (init_param : ad713x_init_param)
  (w w' : world P) (r : Z) (h : handle) (dev : ad713x_dev) :
  CH0 = 0 -> CH1 = 1 -> CH2 = 2 -> CH3 = 3 ->
  ad713x_init fuel init_param w = Ok (r, Some (h, dev)) w' ->
  r = SUCCESS /\
  exists setup rets config w_gpio,
    Forall bus_setup_event setup /\
    Forall transfer_event config /\
    trace w_gpio = trace w ++ setup ++ gpio_phase dev init_param rets /\
    trace w' = trace w_gpio ++ config /\
    until_error (init_configuration fuel dev init_param) w_gpio =
      Ok SUCCESS w'.
Proof.
  intros C0 C1 C2 C3 H. unfold ad713x_init in H.
  driver_step H p w0 E0. apply calloc_run in E0.
  destruct p as [h0 |]; [| discriminate H].
  assert (Hsetup : exists setup w1 dev1,
            Forall bus_setup_event setup /\
            trace w1 = trace w ++ setup /\
            init_after_spi fuel h0 dev1 init_param w1 =
              Ok (r, Some (h, dev)) w').
  { destruct (ip_spi_common_dev init_param) as [common |].
    - driver_step H q w1 E1. apply calloc_run in E1.
      destruct q as [hs |]; [| discriminate H].
      driver_step H u w2 E2. injection E2 as _ <-.
      eexists [_; _; _], _, _.
      split; [| split; [| exact H]]; cycle 1.
      + cbn [trace]. rewrite E1, E0, <- !app_assoc. reflexivity.
      + repeat constructor.
    - driver_step H a w1 E1. destruct a as [ret d].
      apply spi_init_run in E1.
      destruct (IS_ERR_VALUE ret) eqn:X.
      + exfalso. revert H. apply error_dev_none.
      + eexists [_; _], _, _.
        split; [| split; [| exact H]]; cycle 1.
        * rewrite E1, E0, <- !app_assoc. reflexivity.
        * repeat constructor. }
  destruct Hsetup as (setup & w1 & dev1 & Fsetup & T1 & Hrest).
  apply init_after_spi_success in Hrest
    as (-> & _ & _ & rets & w_gpio & Ht & Hcfg); try assumption.
  split; [reflexivity |].
  destruct (only_transfers_until_error _
              (only_transfers_init_configuration fuel dev init_param)
              _ _ _ Hcfg) as (config & Tc & Fc).
  exists setup, rets, config, w_gpio.
  repeat split; try assumption.
  rewrite Ht, T1, <- app_assoc. reflexivity.
Qed.

End Facts.

(** * Worked examples on the simulated board *)

Section OnTheBoard.

#[local] Existing Instance Board.header.
#[local] Existing Instance Board.faultless.

Lemma suffix_after {A : Type} (p l e : list A) :
  l = p ++ e -> e = skipn (length p) l.
Proof.
  intros ->. rewrite skipn_app, skipn_all, Nat.sub_diag. reflexivity.
Qed.

(** C3, at a failing input.  The first register read of the
    initialisation (platform call 15) fails.  [ad713x_init] returns
    FAILURE, and on its way out runs [ad713x_remove_gpio] and then
    [ad713x_remove], which runs [ad713x_remove_gpio] again: each of the
    five GPIO descriptors is removed twice. *)
Theorem init_failure_removes_gpio_twice :
  exists w,
    Board.bring_up [15%nat] = Ok (FAILURE, None) w /\
    acquisitions (trace w) =
      [RMem 1%nat; RSpi 2%nat; RGpio 3%nat; RGpio 4%nat; RGpio 5%nat; RGpio 6%nat; RGpio 7%nat] /\
    releases (trace w) =
      [RGpio 5%nat; RGpio 4%nat; RGpio 3%nat; RGpio 7%nat; RGpio 6%nat; RSpi 2%nat;
       RGpio 5%nat; RGpio 4%nat; RGpio 3%nat; RGpio 7%nat; RGpio 6%nat; RMem 1%nat] /\
    times_released (trace w) (RGpio 3%nat) = 2%nat /\
    ~ released_exactly_once (trace w).
Proof.
  eexists. split; [vm_compute; reflexivity |].
  split; [reflexivity |]. split; [reflexivity |].
  split; [reflexivity |].
  intros [_ H]. specialize (H (RGpio 3%nat)). vm_compute in H. lia.
Qed.

(** C2 as stated fails: with an empty mask every bit is outside the
    mask, yet writing data 1 over a register that reads 0 sets bit 0. *)
Lemma write_mask_sets_bit_outside_mask :
  Z.testbit (u32 0) 0 = false /\
  ~ write_keeps_bit (pf := Board.platform []) Board.device 2 0 1
                    Board.start 0.
Proof.
  split; [reflexivity |].
  intros H. unfold write_keeps_bit in H.
  specialize (H 0 (mkWorld (Board.mkState 1 2 [(2, 1)])
                           [EvSpiXfer (Some 2%nat) 130 0 0 0 0;
                            EvSpiXfer (Some 2%nat) 2 1 0 0 0])
                (Some 2%nat) 130 0 0 0 0 (Some 2%nat) 2 1 0 0 0
                eq_refl eq_refl).
  discriminate H.
Qed.

(** C4 as stated fails: after a faultless initialisation the teardown
    succeeds, but it removes the SPI descriptor first and the GPIO lines
    in the order dclkio, dclkmode, mode, pnd, resetn, which is not the
    reverse of the order of acquisition. *)
Lemma remove_does_not_reverse_init :
  ~ remove_reverses_init (pf := Board.platform []) 9 Board.params
                         Board.boot.
Proof.
  intros H. unfold remove_reverses_init in H.
  specialize (H (1%nat, Board.device) Board.up).
  destruct H as (w2 & evs & Hrun & Htrace & Horder);
    [vm_compute; reflexivity |].
  vm_compute in Hrun. injection Hrun as <-.
  apply suffix_after in Htrace. subst evs.
  vm_compute in Horder. discriminate Horder.
Qed.

(** ** The general theorems at work *)

Lemma board_removal_succeeds :
  removal_succeeds (pf := Board.platform []).
Proof. split; intros p d; reflexivity. Defined.

(** A 24-bit frame with a 6-bit CRC header on variant 1: row 3. *)
Lemma out_data_frame_selects_first_match_on_board :
  (dev_id Board.device = 0 \/ dev_id Board.device = 1 \/
   dev_id Board.device = 2) /\
  (9 <= 9)%nat /\
  ((exists i,
      first_match (dev_id Board.device) 1 1 i /\
      (forall i', first_match (dev_id Board.device) 1 1 i' -> i' = i) /\
      ad713x_set_out_data_frame (pf := Board.platform []) 9 Board.device
                                1 1 Board.start =
      ad713x_spi_write_mask Board.device AD713X_REG_DATA_PACKET_CONFIG
        AD713X_DATA_PACKET_CONFIG_FRAME_MSK
        (AD713X_DATA_PACKET_CONFIG_FRAME_MODE i) Board.start)
   \/
   ((forall i, ~ first_match (dev_id Board.device) 1 1 i) /\
    ad713x_set_out_data_frame (pf := Board.platform []) 9 Board.device
                              1 1 Board.start =
    Ok FAILURE Board.start)).
Proof.
  split; [right; left; reflexivity |].
  split; [apply le_n |].
  apply (out_data_frame_selects_first_match (pf := Board.platform []) 9
           Board.device 1 1 Board.start);
    [right; left; reflexivity | apply le_n].
Defined.

(** On the board that row is row 3: the register 0x11 is read, and
    written back with 3 in bits 6 to 4. *)
Example frame_24_bit_crc_6_on_board :
  ad713x_set_out_data_frame 9 Board.device 1 1 Board.start =
  Ok 0 (mkWorld (Board.mkState 1 2 [(0x11, 0x30)])
                [EvSpiXfer (Some 2%nat) 0x91 0 0 0 0;
                 EvSpiXfer (Some 2%nat) 0x11 0x30 0 0 0]).
Proof. reflexivity. Qed.

(** Mask 0x01, data 0x01, bit 1. *)
Lemma write_mask_keeps_unmasked_bits_on_board :
  IS_ERR_VALUE FAILURE = true /\
  IS_ERR_VALUE SUCCESS = false /\
  Z.testbit (u32 1) 1 = false /\
  Z.testbit (u8 1) 1 = false /\
  read_modify_write (pf := Board.platform []) Board.device 2 1 1
                    Board.start /\
  write_keeps_bit (pf := Board.platform []) Board.device 2 1 1
                  Board.start 1.
Proof.
  split; [reflexivity |]. split; [reflexivity |].
  split; [reflexivity |]. split; [reflexivity |].
  apply (write_mask_keeps_unmasked_bits (hdr := Board.header)
           (pf := Board.platform []) eq_refl eq_refl Board.device 2 1 1 Board.start 1);
    reflexivity.
Defined.

Lemma set_power_mode_cases_on_board :
  LOW_POWER <> HIGH_POWER /\
  (1 = LOW_POWER ->
   ad713x_set_power_mode (pf := Board.platform []) Board.device 1
                         Board.start =
   ad713x_spi_write_mask Board.device AD713X_REG_DEVICE_CONFIG
                         AD713X_DEV_CONFIG_PWR_MODE_MSK 0 Board.start) /\
  (1 = HIGH_POWER ->
   ad713x_set_power_mode (pf := Board.platform []) Board.device 1
                         Board.start =
   ad713x_spi_write_mask Board.device AD713X_REG_DEVICE_CONFIG
                         AD713X_DEV_CONFIG_PWR_MODE_MSK 1 Board.start) /\
  (1 <> LOW_POWER -> 1 <> HIGH_POWER ->
   ad713x_set_power_mode (pf := Board.platform []) Board.device 1
                         Board.start = Ok FAILURE Board.start).
Proof.
  split; [discriminate |].
  apply (set_power_mode_cases (pf := Board.platform []) Board.device 1
           Board.start).
  discriminate.
Defined.

Lemma out_data_frame_scan_is_safe_on_board :
  (dev_id Board.device = 0 \/ dev_id Board.device = 1 \/
   dev_id Board.device = 2) /\
  (9 <= 9)%nat /\
  (exists ret w',
     ad713x_set_out_data_frame (pf := Board.platform []) 9 Board.device
                               2 2 Board.start = Ok ret w') /\
  frame_entry 0 8 0 = Some INVALID /\
  frame_entry 1 6 0 = Some INVALID /\
  frame_entry 2 3 0 = Some INVALID.
Proof.
  split; [right; left; reflexivity |].
  split; [apply le_n |].
  apply (out_data_frame_scan_is_safe (pf := Board.platform []) 9
           Board.device 2 2 Board.start);
    [right; left; reflexivity | apply le_n].
Defined.

Lemma clk_delay_is_per_channel_on_board :
  CH0 = 0 /\ CH1 = 1 /\ CH2 = 2 /\ CH3 = 3 /\
  -128 <= DELAY_NONE <= 127 /\
  -128 <= DELAY_2_CLOCKS <= 127 /\
  ad713x_mag_phase_clk_delay (pf := Board.platform []) Board.device true
                             Board.start =
  clk_delay_per_channel Board.device true Board.start.
Proof.
  repeat (split; [reflexivity || (split; discriminate) |]).
  apply (clk_delay_is_per_channel (pf := Board.platform []) Board.device
           true Board.start);
    reflexivity || (split; discriminate).
Defined.

Lemma remove_releases_in_order_on_board :
  removal_succeeds (pf := Board.platform []) /\
  exists w' evs,
    ad713x_remove (pf := Board.platform []) (Some (1%nat, Board.device))
                  Board.up = Ok SUCCESS w' /\
    trace w' = trace Board.up ++ evs /\
    releases evs =
      [RSpi 2%nat; RGpio 5%nat; RGpio 4%nat; RGpio 3%nat; RGpio 7%nat;
       RGpio 6%nat; RMem 1%nat].
Proof.
  split; [exact board_removal_succeeds |].
  apply (remove_releases_in_order (hdr := Board.header)
           (pf := Board.platform []) eq_refl 1%nat Board.device Board.up
           2%nat 3%nat 4%nat 5%nat 6%nat 7%nat board_removal_succeeds);
    reflexivity.
Defined.

Lemma init_success_order_on_board :
  CH0 = 0 /\ CH1 = 1 /\ CH2 = 2 /\ CH3 = 3 /\
  Board.bring_up [] = Ok (0, Some (1%nat, Board.device)) Board.up /\
  0 = SUCCESS /\
  exists setup rets config w_gpio,
    Forall bus_setup_event setup /\
    Forall transfer_event config /\
    trace w_gpio =
      trace Board.start ++ setup ++
      gpio_phase Board.device Board.params rets /\
    trace Board.up = trace w_gpio ++ config /\
    until_error (init_configuration 9 Board.device Board.params) w_gpio =
      Ok SUCCESS Board.up.
Proof.
  do 4 (split; [reflexivity |]).
  split; [vm_compute; reflexivity |].
  apply (init_success_order (hdr := Board.header)
           (pf := Board.platform []) eq_refl eq_refl 9
           Board.params Board.start Board.up 0 1%nat Board.device);
    [reflexivity | reflexivity | reflexivity | reflexivity
    | vm_compute; reflexivity].
Defined.

End OnTheBoard.

(** * Further properties of the driver *)

Section Further.

Context {hdr : ad713x_h} {P : Type} {pf : Platform P}.

Hypothesis failure_is_error : IS_ERR_VALUE FAILURE = true.
Hypothesis success_is_no_error : IS_ERR_VALUE SUCCESS = false.

(** ** The masked write and the setters built on it *)

(** Bit [n] of what the masked write writes back, from what it read. *)
Lemma write_mask_bit (dev : ad713x_dev) (reg_addr mask data : Z)
  (w w' : world P) (n ret : Z)
  (d0 : ptr) (a0 z0 ret0 x0 r : Z) (d1 : ptr) (a1 v ret1 x1 y1 : Z) :
  ad713x_spi_write_mask dev reg_addr mask data w = Ok ret w' ->
  trace w' = trace w ++ [EvSpiXfer d0 a0 z0 ret0 x0 r;
                         EvSpiXfer d1 a1 v ret1 x1 y1] ->
  Z.testbit v n =
  (n <? 8) && ((Z.testbit r n && negb (Z.testbit (u32 mask) n))
               || Z.testbit (u8 data) n).
Proof.
  intros Hrun Htrace.
  destruct (write_mask_run failure_is_error success_is_no_error
              dev reg_addr mask data w)
    as (p1 & r1 & b0 & b1 & [[_ H] | [_ (p2 & r2 & c0 & c1 & H)]]);
    rewrite H in Hrun; injection Hrun as <- <-; cbn [trace] in Htrace;
    apply app_inv_head in Htrace.
  - discriminate Htrace.
  - injection Htrace as; subst. apply merged_testbit.
Qed.

(** X1. Whenever the masked write reads a register and writes it back,
    every bit of the byte that the mask selects is written with the
    corresponding bit of [data]. *)
Theorem write_mask_sets_selected_bits (dev : ad713x_dev)
  (reg_addr mask data : Z) (w w' : world P) (n ret : Z)
  (d0 : ptr) (a0 z0 ret0 x0 r : Z) (d1 : ptr) (a1 v ret1 x1 y1 : Z) :
  0 <= n < 8 ->
  Z.testbit (u32 mask) n = true ->
  ad713x_spi_write_mask dev reg_addr mask data w = Ok ret w' ->
  trace w' = trace w ++ [EvSpiXfer d0 a0 z0 ret0 x0 r;
                         EvSpiXfer d1 a1 v ret1 x1 y1] ->
  Z.testbit v n = Z.testbit data n.
Proof.
  intros Hn Hmask Hrun Htrace.
  rewrite (write_mask_bit _ _ _ _ _ _ n _ _ _ _ _ _ _ _ _ _ _ _ _
             Hrun Htrace).
  rewrite Hmask, u8_testbit.
  replace (n <? 8) with true by (symmetry; apply Z.ltb_lt; lia).
  cbn. rewrite andb_false_r. reflexivity.
Qed.

Lemma switch_data_in_mask (m n : Z) (on : bool) :
  Z.testbit (u32 m) n = false ->
  Z.testbit (u8 (if on then m else 0)) n = false.
Proof.
  intros H. rewrite u8_testbit. rewrite u32_testbit in H.
  destruct on; [| rewrite Z.testbit_0_l; apply andb_false_r].
  destruct (Z.ltb_spec n 8); [| reflexivity].
  replace (n <? 32) with true in H by (symmetry; apply Z.ltb_lt; lia).
  exact H.
Qed.

Lemma write_mask_switch_keeps_bit (dev : ad713x_dev)
  (reg_addr m : Z) (on : bool) (w : world P) (n : Z) :
  Z.testbit (u32 m) n = false ->
  setter_keeps_bit
    (ad713x_spi_write_mask dev reg_addr m (if on then m else 0)) w n.
Proof.
  intros Hmask ret w' d0 a0 z0 ret0 x0 r d1 a1 v ret1 x1 y1 Hrun Htrace.
  rewrite (write_mask_bit _ _ _ _ _ _ n _ _ _ _ _ _ _ _ _ _ _ _ _
             Hrun Htrace).
  rewrite Hmask, (switch_data_in_mask m n on Hmask).
  destruct (Z.ltb_spec n 8) as [H8 | H8]; cbn.
  - rewrite andb_true_r, orb_false_r.
    pose proof (write_mask_run failure_is_error success_is_no_error
                  dev reg_addr m (if on then m else 0) w) as Hw.
    destruct Hw
      as (p1 & r1 & b0 & b1 & [[_ H] | [_ (p2 & r2 & c0 & c1 & H)]]);
      rewrite H in Hrun; injection Hrun as <- <-; cbn [trace] in Htrace;
      apply app_inv_head in Htrace; [discriminate Htrace |].
    injection Htrace as; subst. reflexivity.
  - pose proof (write_mask_run failure_is_error success_is_no_error
                  dev reg_addr m (if on then m else 0) w) as Hw.
    destruct Hw
      as (p1 & r1 & b0 & b1 & [[_ H] | [_ (p2 & r2 & c0 & c1 & H)]]);
      rewrite H in Hrun; injection Hrun as <- <-; cbn [trace] in Htrace;
      apply app_inv_head in Htrace; [discriminate Htrace |].
    injection Htrace as; subst.
    rewrite u8_testbit.
    replace (n <? 8) with false by (symmetry; apply Z.ltb_ge; lia).
    reflexivity.
Qed.

(** X2. The three on/off setters (CLKOUT enable, reference gain
    correction enable, wideband bandwidth select) pass either their mask
    or 0 as data, so whatever the header defines the masks to be, they
    leave every bit outside their mask as it was read. *)
Theorem switch_setters_keep_other_bits (dev : ad713x_dev)
  (enable : bool) (ch wb_opt : Z) (w : world P) (n : Z) :
  (Z.testbit (u32 AD713X_DEV_CONFIG1_CLKOUT_EN_MSK) n = false ->
   setter_keeps_bit (ad713x_clkout_output_en dev enable) w n) /\
  (Z.testbit (u32 AD713X_DEV_CONFIG1_REF_GAIN_CORR_EN_MSK) n = false ->
   setter_keeps_bit (ad713x_ref_gain_correction_en dev enable) w n) /\
  (Z.testbit (u32 (AD713X_FIR_BW_SEL_CH_MSK ch)) n = false ->
   setter_keeps_bit (ad713x_wideband_bw_sel dev ch wb_opt) w n).
Proof.
  repeat split; intros Hmask.
  - apply (write_mask_switch_keeps_bit dev _ _ enable w n Hmask).
  - apply (write_mask_switch_keeps_bit dev _ _ enable w n Hmask).
  - apply (write_mask_switch_keeps_bit dev _ _
             (negb (u8 wb_opt =? 0)) w n Hmask).
Qed.

(** ** What the frame table accepts *)

(** X3. Asking for the data length INVALID is always refused: on every
    variant the scan stops at a row whose first entry is the sentinel
    before it compares it, and returns FAILURE without any access to the
    bus. *)
Theorem out_data_frame_rejects_invalid (fuel : nat) (dev : ad713x_dev)
  (crc_header : Z) (w : world P) :
  dev_id dev = 0 \/ dev_id dev = 1 \/ dev_id dev = 2 ->
  (9 <= fuel)%nat ->
  ad713x_set_out_data_frame fuel dev INVALID crc_header w = Ok FAILURE w.
Proof.
  intros Hid Hfuel.
  destruct (out_data_frame_run fuel dev INVALID crc_header w Hid Hfuel)
    as [(i & Hi & _) | [_ H]]; [| exact H].
  exfalso. destruct Hi as (H0 & Hlen & _ & Hsent & _).
  apply (Hsent i); [lia | exact Hlen].
Qed.

(** A matching row lies before the sentinel of its variant. *)
Lemma first_match_before (id adc_data_len crc_header i s : Z) :
  0 <= s -> frame_entry id s 0 = Some INVALID ->
  first_match id adc_data_len crc_header i -> i < s.
Proof.
  intros Hs Hsentinel (H0 & _ & _ & Hsent & _).
  destruct (Z.lt_ge_cases i s) as [Hlt | Hge]; [exact Hlt |].
  exfalso. apply (Hsent s); [lia | exact Hsentinel].
Qed.

(** The data lengths in the rows of variants 2 and 1. *)
Lemma frame_lengths_variant_2 (i : Z) :
  0 <= i < 3 -> frame_entry 2 i 0 = Some ADC_16_BIT_DATA.
Proof.
  intros H. assert (Ei : i = 0 \/ i = 1 \/ i = 2) by lia.
  destruct Ei as [-> | [-> | ->]]; reflexivity.
Qed.

Lemma frame_lengths_variant_1 (i : Z) :
  0 <= i < 6 ->
  frame_entry 1 i 0 = Some ADC_16_BIT_DATA \/
  frame_entry 1 i 0 = Some ADC_24_BIT_DATA.
Proof.
  intros H.
  assert (Ei : i = 0 \/ i = 1 \/ i = 2 \/ i = 3 \/ i = 4 \/ i = 5)
    by lia.
  destruct Ei as [-> | [-> | [-> | [-> | [-> | ->]]]]];
    (left; reflexivity) || (right; reflexivity).
Qed.

(** X4. The narrower variants refuse the wider frames: variant 2 accepts
    no data length but ADC_16_BIT_DATA, and variant 1 none but
    ADC_16_BIT_DATA and ADC_24_BIT_DATA.  Any other length returns
    FAILURE without any access to the bus, whatever the CRC header. *)
Theorem out_data_frame_variant_lengths (fuel : nat) (dev : ad713x_dev)
  (adc_data_len crc_header : Z) (w : world P) :
  (9 <= fuel)%nat ->
  adc_data_len <> ADC_16_BIT_DATA ->
  dev_id dev = 2 \/ (dev_id dev = 1 /\ adc_data_len <> ADC_24_BIT_DATA) ->
  ad713x_set_out_data_frame fuel dev adc_data_len crc_header w =
  Ok FAILURE w.
Proof.
  intros Hfuel H16 Hid.
  assert (Hid' : dev_id dev = 0 \/ dev_id dev = 1 \/ dev_id dev = 2)
    by (destruct Hid as [-> | [-> _]]; auto).
  destruct (out_data_frame_run fuel dev adc_data_len crc_header w
              Hid' Hfuel) as [(i & Hi & _) | [_ H]]; [| exact H].
  exfalso. destruct frame_sentinels as (_ & S1 & S2).
  destruct Hid as [E | [E H24]]; rewrite E in Hi.
  - pose proof (first_match_before _ _ _ _ 3 ltac:(lia) S2 Hi) as Hlt.
    destruct Hi as (H0 & Hlen & _).
    rewrite frame_lengths_variant_2 in Hlen by lia. congruence.
  - pose proof (first_match_before _ _ _ _ 6 ltac:(lia) S1 Hi) as Hlt.
    destruct Hi as (H0 & Hlen & _).
    destruct (frame_lengths_variant_1 i ltac:(lia)) as [R | R];
      rewrite R in Hlen; congruence.
Qed.

(** X5. The variant is not checked: for a device whose [dev_id], as a
    [uint8_t], is 3 or more, the first test of the loop already reads
    [ad713x_output_data_frame] outside its first dimension. *)
Theorem out_data_frame_unchecked_variant (fuel : nat) (dev : ad713x_dev)
  (adc_data_len crc_header : Z) (w : world P) :
  3 <= u8 (dev_id dev) ->
  (1 <= fuel)%nat ->
  ad713x_set_out_data_frame fuel dev adc_data_len crc_header w =
  Fault OutOfBounds.
Proof.
  intros Hid Hfuel. unfold ad713x_set_out_data_frame.
  destruct fuel as [| fuel]; [lia |]. cbn [out_data_frame_loop].
  rewrite frame_entry_out_of_bounds by lia. reflexivity.
Qed.

(** ** Teardown when removals fail or lines are missing *)

Lemma remove_if_cases (cond desc : ptr) (k : M P Z) (w : world P)
  (Q : outcome P Z -> Prop) :
  (cond = None -> Q (k w)) ->
  (forall p' ret,
     cond <> None ->
     IS_ERR_VALUE ret = true ->
     Q (Ok FAILURE (mkWorld p' (trace w ++ [EvGpioRemove desc ret])))) ->
  (forall p' ret,
     cond <> None ->
     IS_ERR_VALUE ret = false ->
     Q (k (mkWorld p' (trace w ++ [EvGpioRemove desc ret])))) ->
  Q (remove_if cond desc k w).
Proof.
  intros Hnull Herr Hgo. unfold remove_if.
  destruct cond as [c |]; cbn [is_null negb]; [| apply Hnull; reflexivity].
  unfold Bind, gpio_remove.
  destruct (plat_gpio_remove (plat w) desc) as [p' ret].
  destruct (IS_ERR_VALUE ret) eqn:E.
  - apply Herr; [discriminate | exact E].
  - apply Hgo; [discriminate | exact E].
Qed.



Ltac removal_leaf rets :=
  exists rets; eexists; eexists;
  split; [reflexivity |];
  split; [cbn [trace]; rewrite <- ?app_assoc; reflexivity |].

(** X6. On a device whose lines are set, [ad713x_remove_gpio] removes
    dclkio, dclkmode, mode, pnd, resetn in this order and stops at the
    first removal that reports an error: it then returns FAILURE and the
    lines after that one are not removed.  It returns SUCCESS only after
    five removals without error. *)
Theorem remove_gpio_stops_at_first_failure (dev : ad713x_dev)
  (w : world P) :
  gpio_dclkio dev <> None -> gpio_mode dev <> None ->
  gpio_pnd dev <> None -> gpio_resetn dev <> None ->
  exists rets ret w',
    ad713x_remove_gpio dev w = Ok ret w' /\
    trace w' = trace w ++ gpio_removals dev rets /\
    ((ret = SUCCESS /\ length rets = 5%nat /\
      Forall (fun r => IS_ERR_VALUE r = false) rets)
     \/
     (ret = FAILURE /\
      exists front last,
        rets = front ++ [last] /\ (length front < 5)%nat /\
        Forall (fun r => IS_ERR_VALUE r = false) front /\
        IS_ERR_VALUE last = true)).
Proof.
  intros H3 H1 H5 H4. unfold ad713x_remove_gpio.
  apply remove_if_cases; [contradiction | intros p1 r1 _ X1
                          | intros p1 r1 _ X1].
  { removal_leaf [r1]. right. split; [reflexivity |].
    exists [], r1. repeat split; try constructor; try assumption.
    cbn; lia. }
  apply remove_if_cases; [contradiction | intros p2 r2 _ X2
                          | intros p2 r2 _ X2].
  { removal_leaf [r1; r2]. right. split; [reflexivity |].
    exists [r1], r2. repeat split; try assumption.
    - cbn; lia.
    - repeat constructor; assumption. }
  apply remove_if_cases; [contradiction | intros p3 r3 _ X3
                          | intros p3 r3 _ X3].
  { removal_leaf [r1; r2; r3]. right. split; [reflexivity |].
    exists [r1; r2], r3. repeat split; try assumption.
    - cbn; lia.
    - repeat constructor; assumption. }
  apply remove_if_cases; [contradiction | intros p4 r4 _ X4
                          | intros p4 r4 _ X4].
  { removal_leaf [r1; r2; r3; r4]. right. split; [reflexivity |].
    exists [r1; r2; r3], r4. repeat split; try assumption.
    - cbn; lia.
    - repeat constructor; assumption. }
  apply remove_if_cases; [contradiction | intros p5 r5 _ X5
                          | intros p5 r5 _ X5].
  { removal_leaf [r1; r2; r3; r4; r5]. right. split; [reflexivity |].
    exists [r1; r2; r3; r4], r5. repeat split; try assumption.
    - cbn; lia.
    - repeat constructor; assumption. }
  removal_leaf [r1; r2; r3; r4; r5]. left.
  repeat split. repeat constructor; assumption.
Qed.

Ltac teardown_leaf :=
  eexists; eexists; eexists;
  split; [reflexivity |];
  split; [cbn [trace]; rewrite <- ?app_assoc;
          first [reflexivity | symmetry; apply app_nil_r] |];
  cbn [app]; repeat (apply Forall_cons || apply Forall_nil);
  cbn; auto 6.

(** X7. The second test of [ad713x_remove_gpio] reads [gpio_dclkio]
    where it removes [gpio_dclkmode]: on a device whose dclkio line is
    not set, the only descriptors removed are those of mode, pnd and
    resetn, so a dclkmode line that was acquired is never removed. *)
Theorem remove_gpio_skips_dclkmode (dev : ad713x_dev) (w : world P) :
  gpio_dclkio dev = None ->
  exists ret w' evs,
    ad713x_remove_gpio dev w = Ok ret w' /\
    trace w' = trace w ++ evs /\
    Forall (removes_one_of [gpio_mode dev; gpio_pnd dev; gpio_resetn dev])
           evs.
Proof.
  intros Hnull. unfold ad713x_remove_gpio. rewrite Hnull.
  unfold remove_if at 1 2. cbn [is_null negb].
  apply remove_if_cases; [intros _ | intros p1 r1 _ _ | intros p1 r1 _ _];
    [| teardown_leaf |];
    (apply remove_if_cases;
     [intros _ | intros p2 r2 _ _ | intros p2 r2 _ _];
     [| teardown_leaf |]);
    (apply remove_if_cases;
     [intros _ | intros p3 r3 _ _ | intros p3 r3 _ _]);
    teardown_leaf.
Qed.


(** X9. The exit [error_gpio] of [ad713x_init] runs
    [ad713x_remove_gpio] and falls through to [error_dev], whose
    [ad713x_remove] runs it again on the same, unchanged device.  On a
    device whose descriptors are all set, with removals that succeed,
    every GPIO line is removed twice before the structure is freed, and
    the result is FAILURE with no device. *)
Theorem error_exit_removes_gpio_twice (h : handle) (dev : ad713x_dev)
  (w : world P) (s g1 g2 g3 g4 g5 : handle) :
  removal_succeeds ->
  spi_desc dev = Some s ->
  gpio_mode dev = Some g1 ->
  gpio_dclkmode dev = Some g2 ->
  gpio_dclkio dev = Some g3 ->
  gpio_resetn dev = Some g4 ->
  gpio_pnd dev = Some g5 ->
  exists w' evs,
    error_gpio h dev w = Ok (FAILURE, None) w' /\
    trace w' = trace w ++ evs /\
    releases evs =
      [RGpio g3; RGpio g2; RGpio g1; RGpio g5; RGpio g4; RSpi s;
       RGpio g3; RGpio g2; RGpio g1; RGpio g5; RGpio g4; RMem h].
Proof.
  intros Hok Hs H1 H2 H3 H4 H5.
  unfold error_gpio, error_dev, ad713x_remove, spi_remove, free, Bind.
  unfold ad713x_remove_gpio at 1.
  edestruct (remove_if_succeeds (gpio_dclkio dev) (gpio_dclkio dev))
    as (pa & ra & Ea); [exact Hok | exact H3 |]. rewrite Ea; clear Ea.
  edestruct (remove_if_succeeds (gpio_dclkio dev) (gpio_dclkmode dev))
    as (pb & rb & Eb); [exact Hok | exact H3 |]. rewrite Eb; clear Eb.
  edestruct (remove_if_succeeds (gpio_mode dev) (gpio_mode dev))
    as (pc & rc & Ec); [exact Hok | exact H1 |]. rewrite Ec; clear Ec.
  edestruct (remove_if_succeeds (gpio_pnd dev) (gpio_pnd dev))
    as (pd & rd & Ed); [exact Hok | exact H5 |]. rewrite Ed; clear Ed.
  edestruct (remove_if_succeeds (gpio_resetn dev) (gpio_resetn dev))
    as (pe & re & Ee); [exact Hok | exact H4 |]. rewrite Ee; clear Ee.
  unfold Return at 1. cbn [plat trace].
  pose proof (proj1 Hok pe (spi_desc dev)) as Hspi.
  destruct (plat_spi_remove pe (spi_desc dev)) as [p0 r0].
  cbn [snd] in Hspi. rewrite Hspi.
  unfold ad713x_remove_gpio.
  edestruct (remove_if_succeeds (gpio_dclkio dev) (gpio_dclkio dev))
    as (pa' & ra' & Ea); [exact Hok | exact H3 |]. rewrite Ea; clear Ea.
  edestruct (remove_if_succeeds (gpio_dclkio dev) (gpio_dclkmode dev))
    as (pb' & rb' & Eb); [exact Hok | exact H3 |]. rewrite Eb; clear Eb.
  edestruct (remove_if_succeeds (gpio_mode dev) (gpio_mode dev))
    as (pc' & rc' & Ec); [exact Hok | exact H1 |]. rewrite Ec; clear Ec.
  edestruct (remove_if_succeeds (gpio_pnd dev) (gpio_pnd dev))
    as (pd' & rd' & Ed); [exact Hok | exact H5 |]. rewrite Ed; clear Ed.
  edestruct (remove_if_succeeds (gpio_resetn dev) (gpio_resetn dev))
    as (pe' & re' & Ee); [exact Hok | exact H4 |]. rewrite Ee; clear Ee.
  unfold Return. rewrite success_is_no_error. cbn [plat trace].
  eexists. eexists. split; [reflexivity |]. cbn [trace].
  rewrite <- !app_assoc. cbn [app].
  split; [reflexivity |].
  rewrite Hs, H1, H2, H3, H4, H5. reflexivity.
Qed.

(** ** Initialisation: what its exits leave *)

Lemma error_dev_result (h : handle) (d : ad713x_dev) (w w' : world P)
  (r : Z) (x : option (handle * ad713x_dev)) :
  error_dev h d w = Ok (r, x) w' -> r = FAILURE /\ x = None.
Proof.
  unfold error_dev, Bind, Return.
  destruct (ad713x_remove (Some (h, d)) w); try discriminate.
  intros H. injection H as <- <- _. split; reflexivity.
Qed.

Lemma error_gpio_result (h : handle) (d : ad713x_dev) (w w' : world P)
  (r : Z) (x : option (handle * ad713x_dev)) :
  error_gpio h d w = Ok (r, x) w' -> r = FAILURE /\ x = None.
Proof.
  unfold error_gpio, Bind.
  destruct (ad713x_remove_gpio d w); try discriminate.
  apply error_dev_result.
Qed.

Ltac init_step H :=
  let a := fresh "a" in
  let w := fresh "w" in
  let E := fresh "E" in
  apply bind_inv in H as (a & w & E & H);
  try (destruct a as [? ?]);
  match type of H with
  | context [IS_ERR_VALUE ?r] =>
      destruct (IS_ERR_VALUE r);
      [right; apply error_gpio_result in H; exact H |]
  end.

Lemma init_after_spi_result (fuel : nat) (h : handle) (dev : ad713x_dev)
  (init_param : ad713x_init_param) (w w' : world P) (r : Z)
  (d : option (handle * ad713x_dev)) :
  init_after_spi fuel h dev init_param w = Ok (r, d) w' ->
  (r = SUCCESS /\
   exists dev', d = Some (h, dev') /\ dev_id dev' = ip_dev_id init_param)
  \/ (r = FAILURE /\ d = None).
Proof.
  intros H. unfold init_after_spi in H.
  do 9 init_step H.
  injection H as <- <- _. left. split; [reflexivity |].
  eexists. split; reflexivity.
Qed.

(** X10. Whenever [ad713x_init] returns, it has either returned SUCCESS
    and stored a device, whose [dev_id] is the one of the parameters, or
    returned FAILURE and stored nothing: a caller never gets a device
    from a failed initialisation, nor SUCCESS without one. *)
Theorem init_result_pairing (fuel : nat) (init_param : ad713x_init_param)
  (w w' : world P) (r : Z) (d : option (handle * ad713x_dev)) :
  ad713x_init fuel init_param w = Ok (r, d) w' ->
  (r = SUCCESS /\
   exists h dev,
     d = Some (h, dev) /\ dev_id dev = ip_dev_id init_param)
  \/ (r = FAILURE /\ d = None).
Proof.
  intros H. unfold ad713x_init in H.
  apply bind_inv in H as (p & w0 & E0 & H).
  destruct p as [h |].
  2: { injection H as <- <- _. right. split; reflexivity. }
  assert (Hrest : exists dev1 w1,
            init_after_spi fuel h dev1 init_param w1 = Ok (r, d) w' \/
            error_dev h dev1 w1 = Ok (r, d) w').
  { destruct (ip_spi_common_dev init_param) as [common |].
    - apply bind_inv in H as (q & w1 & E1 & H).
      destruct q as [hs |]; [| discriminate H].
      apply bind_inv in H as (u & w2 & E2 & H). eauto.
    - apply bind_inv in H as (a & w1 & E1 & H). destruct a as [ret ds].
      destruct (IS_ERR_VALUE ret); eauto. }
  destruct Hrest as (dev1 & w1 & [Hgo | Herr]).
  - apply init_after_spi_result in Hgo
      as [(-> & dev' & -> & Hid) | Hfail]; [left | right; exact Hfail].
    split; [reflexivity |]. exists h, dev'. split; [reflexivity | exact Hid].
  - right. apply error_dev_result in Herr. exact Herr.
Qed.

(** X11. When [spi_init] fails, [ad713x_init] acquires no GPIO line and
    makes no bus transfer.  It calls [spi_remove] on whatever descriptor
    the failed [spi_init] left, and frees the device structure only if
    that removal does not fail; otherwise the structure stays
    allocated.  The result is FAILURE either way. *)
Theorem init_spi_failure_exit (fuel : nat)
  (init_param : ad713x_init_param) (w : world P)
  (p1 p2 p3 : P) (h : handle) (ret r3 : Z) (d : ptr) :
  ip_spi_common_dev init_param = None ->
  plat_calloc (plat w) ObjDev = (p1, Some h) ->
  plat_spi_init p1 (ip_spi_init_prm init_param) = (p2, (ret, d)) ->
  IS_ERR_VALUE ret = true ->
  plat_spi_remove p2 d = (p3, r3) ->
  ad713x_init fuel init_param w =
  Ok (FAILURE, None)
     (if IS_ERR_VALUE r3
      then mkWorld p3
             (trace w ++ [EvCalloc ObjDev (Some h);
                          EvSpiInit (ip_spi_init_prm init_param) ret d;
                          EvSpiRemove d r3])
      else mkWorld (plat_free p3 (Some h))
             (trace w ++ [EvCalloc ObjDev (Some h);
                          EvSpiInit (ip_spi_init_prm init_param) ret d;
                          EvSpiRemove d r3;
                          EvFree (Some h)])).
Proof.
  intros Hbus Hcalloc Hinit Herr Hremove.
  unfold ad713x_init, Bind, calloc. rewrite Hcalloc, Hbus.
  unfold spi_init. cbn [plat trace]. rewrite Hinit, Herr.
  unfold error_dev, ad713x_remove, Bind, spi_remove.
  cbn [plat trace spi_desc set_spi_desc]. rewrite Hremove.
  destruct (IS_ERR_VALUE r3).
  - unfold Return. rewrite <- !app_assoc. reflexivity.
  - unfold ad713x_remove_gpio, remove_if.
    cbn [gpio_mode gpio_dclkmode gpio_dclkio gpio_resetn gpio_pnd
         set_spi_desc dev_zero is_null negb].
    unfold Return, free. rewrite success_is_no_error.
    cbn [plat trace]. rewrite <- !app_assoc. reflexivity.
Qed.

(** X14. In the shared-bus branch the result of the second [calloc] is
    used without a test: when the device structure is allocated but the
    bus descriptor is not, [ad713x_init] stores through a null
    pointer. *)
Theorem init_shared_bus_null_store (fuel : nat)
  (init_param : ad713x_init_param) (w : world P) (common : spi_desc_t)
  (p1 p2 : P) (h : handle) :
  ip_spi_common_dev init_param = Some common ->
  plat_calloc (plat w) ObjDev = (p1, Some h) ->
  plat_calloc p1 ObjSpiDesc = (p2, None) ->
  ad713x_init fuel init_param w = Fault NullDeref.
Proof.
  intros Hbus Hdev Hdesc.
  unfold ad713x_init, Bind, calloc. rewrite Hdev, Hbus.
  cbn [plat trace]. rewrite Hdesc. reflexivity.
Qed.

Ltac gpio_call :=
  match goal with
  | |- context [plat_gpio_get ?p ?a] =>
      destruct (plat_gpio_get p a) as [? [? ?]]
  | |- context [plat_gpio_direction_output ?p ?a ?b] =>
      destruct (plat_gpio_direction_output p a b) as [? ?]
  | |- context [plat_gpio_set_value ?p ?a ?b] =>
      destruct (plat_gpio_set_value p a b) as [? ?]
  end;
  cbn [plat trace].

Ltac gpio_leaf :=
  unfold Return, mdelay;
  eexists; eexists; eexists; eexists;
  split; [reflexivity |];
  split; [cbn [plat trace]; rewrite <- ?app_assoc; reflexivity |];
  cbn [app];
  repeat split;
  try (repeat (apply Forall_cons || apply Forall_nil); cbn; auto 8);
  auto.

(** X12. Whatever the platform answers, [ad713x_init_gpio] returns
    SUCCESS or FAILURE having made GPIO calls and delays only, no bus
    transfer; every descriptor a [gpio_get] returned is held in a field
    of the device it hands back, also when it fails half way, so that the
    caller can still release it; and the SPI descriptor and [dev_id] of
    the device are untouched. *)
Theorem init_gpio_keeps_what_it_acquired (dev : ad713x_dev)
  (init_param : ad713x_init_param) (w : world P) :
  exists ret dev' w' evs,
    ad713x_init_gpio dev init_param w = Ok (ret, dev') w' /\
    trace w' = trace w ++ evs /\
    Forall gpio_event evs /\
    Forall (held_by dev') evs /\
    spi_desc dev' = spi_desc dev /\
    dev_id dev' = dev_id dev /\
    (ret = SUCCESS \/ ret = FAILURE).
Proof.
  unfold ad713x_init_gpio, Bind, gpio_get, gpio_direction_output,
    gpio_set_value.
  do 10 (gpio_call;
         match goal with
         | |- context [IS_ERR_VALUE ?r] =>
             destruct (IS_ERR_VALUE r); [gpio_leaf |]
         end).
  unfold mdelay at 1. cbn [plat trace].
  gpio_call.
  match goal with
  | |- context [IS_ERR_VALUE ?r] =>
      destruct (IS_ERR_VALUE r); gpio_leaf
  end.
Qed.





(** ** Which register each setter touches *)

Lemma accesses_only_ret (reg a : Z) :
  accesses_only reg (Return (P := P) a).
Proof.
  intros w ret w' H. injection H as _ <-.
  exists []. split; [symmetry; apply app_nil_r | constructor].
Qed.

Lemma accesses_only_write_mask (dev : ad713x_dev) (reg mask data : Z) :
  accesses_only reg (ad713x_spi_write_mask dev reg mask data).
Proof.
  intros w ret w1 H.
  destruct (write_mask_run failure_is_error success_is_no_error
              dev reg mask data w)
    as (p1 & r1 & b0 & b1 & [[_ E] | [_ (p2 & r2 & c0 & c1 & E)]]);
    rewrite E in H; injection H as <- <-; cbn [trace];
    eexists; (split; [reflexivity |]);
    repeat (apply Forall_cons || apply Forall_nil); cbn; auto.
Qed.

Lemma accesses_only_count_down (reg : Z) (n : nat) (body : Z -> M P Z) :
  (forall i, accesses_only reg (body i)) ->
  accesses_only reg (count_down n body).
Proof.
  intros Hbody. induction n as [| n IH]; cbn [count_down].
  - apply accesses_only_ret.
  - intros w ret w2 H.
    apply bind_inv in H as (a & w1 & E & H).
    destruct (Hbody _ _ _ _ E) as (e1 & T1 & F1).
    assert (Hrest : exists e2, trace w2 = trace w1 ++ e2 /\
                               Forall (register_access reg) e2).
    { destruct (IS_ERR_VALUE a).
      - apply (accesses_only_ret reg FAILURE _ _ _ H).
      - apply (IH _ _ _ H). }
    destruct Hrest as (e2 & T2 & F2).
    exists (e1 ++ e2). split.
    + rewrite T2, T1, app_assoc. reflexivity.
    + apply Forall_app. split; assumption.
Qed.

Lemma accesses_only_out_data_frame (fuel : nat) (dev : ad713x_dev)
  (adc_data_len crc_header : Z) :
  accesses_only AD713X_REG_DATA_PACKET_CONFIG
    (ad713x_set_out_data_frame fuel dev adc_data_len crc_header).
Proof.
  unfold ad713x_set_out_data_frame.
  generalize 0 as i. generalize (u8 (dev_id dev)) as id.
  induction fuel as [| fuel IH]; intros id i; cbn [out_data_frame_loop].
  - intros w a w1 H. discriminate H.
  - destruct (frame_entry id i 0) as [e0 |];
      [| intros w a w1 H; discriminate H].
    destruct (negb (e0 =? INVALID)); [| apply accesses_only_ret].
    destruct (adc_data_len =? e0); [| apply IH].
    destruct (frame_entry id i 1) as [e1 |];
      [| intros w a w1 H; discriminate H].
    destruct (crc_header =? e1);
      [apply accesses_only_write_mask | apply IH].
Qed.

(** X15. Each configuration function stays on its own register: when it
    returns, every call it has made to the platform is a transfer that
    reads or writes that register.  The loops over the channels
    ([ad713x_mag_phase_clk_delay], [ad713x_init_chan_bw]) never leave
    the MPC and the FIR bandwidth register, the frame setter never
    leaves the data-packet-config register, also on the paths that
    fail. *)
Theorem setters_stay_on_their_register (fuel : nat) (dev : ad713x_dev)
  (a b ch : Z) (en : bool) :
  accesses_only AD713X_REG_DEVICE_CONFIG (ad713x_set_power_mode dev a) /\
  accesses_only AD713X_REG_DATA_PACKET_CONFIG
    (ad713x_set_out_data_frame fuel dev a b) /\
  accesses_only AD713X_REG_DIGITAL_INTERFACE_CONFIG
    (ad713x_dout_format_config dev a) /\
  accesses_only AD713X_REG_MPC_CONFIG
    (ad713x_mag_phase_clk_delay dev en) /\
  accesses_only AD713X_REG_MPC_CONFIG
    (ad713x_mag_phase_clk_delay_chan dev ch a) /\
  accesses_only AD713X_REG_CHAN_DIG_FILTER_SEL
    (ad713x_dig_filter_sel_ch dev a ch) /\
  accesses_only AD713X_REG_DEVICE_CONFIG1
    (ad713x_clkout_output_en dev en) /\
  accesses_only AD713X_REG_DEVICE_CONFIG1
    (ad713x_ref_gain_correction_en dev en) /\
  accesses_only AD713X_REG_FIR_BW_SEL (ad713x_wideband_bw_sel dev ch a) /\
  accesses_only AD713X_REG_FIR_BW_SEL (ad713x_init_chan_bw dev).
Proof.
  repeat split.
  - unfold ad713x_set_power_mode.
    destruct (a =? LOW_POWER); [apply accesses_only_write_mask |].
    destruct (a =? HIGH_POWER);
      [apply accesses_only_write_mask | apply accesses_only_ret].
  - apply accesses_only_out_data_frame.
  - apply accesses_only_write_mask.
  - apply accesses_only_count_down. intros i.
    apply accesses_only_write_mask.
  - apply accesses_only_write_mask.
  - apply accesses_only_write_mask.
  - apply accesses_only_write_mask.
  - apply accesses_only_write_mask.
  - apply accesses_only_write_mask.
  - apply accesses_only_count_down. intros i.
    apply accesses_only_write_mask.
Qed.

End Further.

(** ** The further properties at work on the board *)

Section FurtherOnTheBoard.

#[local] Existing Instance Board.header.
#[local] Existing Instance Board.faultless.

Lemma write_mask_sets_selected_bits_on_board :
  IS_ERR_VALUE FAILURE = true /\
  IS_ERR_VALUE SUCCESS = false /\
  0 <= 0 < 8 /\
  Z.testbit (u32 1) 0 = true /\
  ad713x_spi_write_mask Board.device 2 1 1 Board.start =
    Ok 0 (mkWorld (Board.mkState 1 2 [(2, 1)])
                  [EvSpiXfer (Some 2%nat) 130 0 0 0 0;
                   EvSpiXfer (Some 2%nat) 2 1 0 0 0]) /\
  Z.testbit 1 0 = Z.testbit 1 0.
Proof.
  split; [reflexivity |]. split; [reflexivity |].
  split; [lia |]. split; [reflexivity |]. split; [reflexivity |].
  apply (write_mask_sets_selected_bits (hdr := Board.header)
           (pf := Board.platform []) eq_refl eq_refl
           Board.device 2 1 1 Board.start
           (mkWorld (Board.mkState 1 2 [(2, 1)])
                    [EvSpiXfer (Some 2%nat) 130 0 0 0 0;
                     EvSpiXfer (Some 2%nat) 2 1 0 0 0])
           0 0 (Some 2%nat) 130 0 0 0 0 (Some 2%nat) 2 1 0 0 0);
    [lia | reflexivity | reflexivity | reflexivity].
Defined.

Lemma switch_setters_keep_other_bits_on_board :
  IS_ERR_VALUE FAILURE = true /\
  IS_ERR_VALUE SUCCESS = false /\
  (Z.testbit (u32 AD713X_DEV_CONFIG1_CLKOUT_EN_MSK) 1 = false ->
   setter_keeps_bit (ad713x_clkout_output_en Board.device true)
                    Board.start 1) /\
  (Z.testbit (u32 AD713X_DEV_CONFIG1_REF_GAIN_CORR_EN_MSK) 1 = false ->
   setter_keeps_bit (ad713x_ref_gain_correction_en Board.device true)
                    Board.start 1) /\
  (Z.testbit (u32 (AD713X_FIR_BW_SEL_CH_MSK 0)) 1 = false ->
   setter_keeps_bit (ad713x_wideband_bw_sel Board.device 0 1)
                    Board.start 1).
Proof.
  split; [reflexivity |]. split; [reflexivity |].
  apply (switch_setters_keep_other_bits (hdr := Board.header)
           (pf := Board.platform []) eq_refl eq_refl
           Board.device true 0 1 Board.start 1).
Defined.

Lemma out_data_frame_rejects_invalid_on_board :
  (dev_id Board.device = 0 \/ dev_id Board.device = 1 \/
   dev_id Board.device = 2) /\
  (9 <= 9)%nat /\
  ad713x_set_out_data_frame 9 Board.device INVALID 0 Board.start =
  Ok FAILURE Board.start.
Proof.
  split; [right; left; reflexivity |]. split; [apply le_n |].
  apply (out_data_frame_rejects_invalid (pf := Board.platform []) 9
           Board.device 0 Board.start);
    [right; left; reflexivity | apply le_n].
Defined.

(** A 32-bit frame on variant 1. *)
Lemma out_data_frame_variant_lengths_on_board :
  (9 <= 9)%nat /\
  2 <> ADC_16_BIT_DATA /\
  (dev_id Board.device = 2 \/
   (dev_id Board.device = 1 /\ 2 <> ADC_24_BIT_DATA)) /\
  ad713x_set_out_data_frame 9 Board.device 2 0 Board.start =
  Ok FAILURE Board.start.
Proof.
  split; [apply le_n |]. split; [discriminate |].
  split; [right; split; [reflexivity | discriminate] |].
  apply (out_data_frame_variant_lengths (pf := Board.platform []) 9
           Board.device 2 0 Board.start);
    [apply le_n | discriminate
    | right; split; [reflexivity | discriminate]].
Defined.

Lemma out_data_frame_unchecked_variant_on_board :
  3 <= u8 (dev_id (set_dev_id Board.device 3)) /\
  (1 <= 9)%nat /\
  ad713x_set_out_data_frame 9 (set_dev_id Board.device 3) 0 0
                            Board.start = Fault OutOfBounds.
Proof.
  split; [discriminate |]. split; [repeat constructor |].
  apply (out_data_frame_unchecked_variant (pf := Board.platform []) 9
           (set_dev_id Board.device 3) 0 0 Board.start);
    [discriminate | repeat constructor].
Defined.

(** The second removal fails: dclkio and dclkmode have been handed to
    [gpio_remove], mode, pnd and resetn have not. *)
Lemma remove_gpio_stops_at_first_failure_on_board :
  gpio_dclkio Board.device <> None /\
  gpio_mode Board.device <> None /\
  gpio_pnd Board.device <> None /\
  gpio_resetn Board.device <> None /\
  exists rets ret w',
    ad713x_remove_gpio (pf := Board.platform [1%nat]) Board.device
                       Board.start = Ok ret w' /\
    trace w' = trace Board.start ++ gpio_removals Board.device rets /\
    ((ret = SUCCESS /\ length rets = 5%nat /\
      Forall (fun r => IS_ERR_VALUE r = false) rets)
     \/
     (ret = FAILURE /\
      exists front last,
        rets = front ++ [last] /\ (length front < 5)%nat /\
        Forall (fun r => IS_ERR_VALUE r = false) front /\
        IS_ERR_VALUE last = true)).
Proof.
  do 4 (split; [discriminate |]).
  apply (remove_gpio_stops_at_first_failure (hdr := Board.header)
           (pf := Board.platform [1%nat]) Board.device Board.start);
    discriminate.
Defined.

Lemma remove_gpio_skips_dclkmode_on_board :
  gpio_dclkio Board.half_device = None /\
  exists ret w' evs,
    ad713x_remove_gpio Board.half_device Board.start = Ok ret w' /\
    trace w' = trace Board.start ++ evs /\
    Forall (removes_one_of [gpio_mode Board.half_device;
                            gpio_pnd Board.half_device;
                            gpio_resetn Board.half_device]) evs.
Proof.
  split; [reflexivity |].
  apply (remove_gpio_skips_dclkmode (pf := Board.platform [])
           Board.half_device Board.start).
  reflexivity.
Defined.


Lemma error_exit_removes_gpio_twice_on_board :
  IS_ERR_VALUE SUCCESS = false /\
  removal_succeeds (pf := Board.platform []) /\
  exists w' evs,
    error_gpio 1%nat Board.device Board.start = Ok (FAILURE, None) w' /\
    trace w' = trace Board.start ++ evs /\
    releases evs =
      [RGpio 5%nat; RGpio 4%nat; RGpio 3%nat; RGpio 7%nat; RGpio 6%nat;
       RSpi 2%nat;
       RGpio 5%nat; RGpio 4%nat; RGpio 3%nat; RGpio 7%nat; RGpio 6%nat;
       RMem 1%nat].
Proof.
  split; [reflexivity |].
  split; [exact board_removal_succeeds |].
  apply (error_exit_removes_gpio_twice (hdr := Board.header)
           (pf := Board.platform []) eq_refl 1%nat Board.device
           Board.start 2%nat 3%nat 4%nat 5%nat 6%nat 7%nat
           board_removal_succeeds);
    reflexivity.
Defined.

(** The initialisation whose first register read fails. *)
Lemma init_result_pairing_on_board :
  exists w',
    Board.bring_up [15%nat] = Ok (FAILURE, None) w' /\
    ((FAILURE = SUCCESS /\
      exists h dev,
        @None (handle * ad713x_dev) = Some (h, dev) /\
        dev_id dev = ip_dev_id Board.params)
     \/ (FAILURE = FAILURE /\ @None (handle * ad713x_dev) = None)).
Proof.
  eexists. split; [vm_compute; reflexivity |].
  eapply (init_result_pairing (hdr := Board.header)
            (pf := Board.platform [15%nat]) 9 Board.params Board.start).
  vm_compute. reflexivity.
Defined.

Lemma init_spi_failure_exit_on_board :
  IS_ERR_VALUE SUCCESS = false /\
  ip_spi_common_dev Board.params = None /\
  plat_calloc (Platform := Board.platform [1%nat]) (plat Board.start)
              ObjDev = (Board.mkState 2 1 [], Some 1%nat) /\
  plat_spi_init (Platform := Board.platform [1%nat])
                (Board.mkState 2 1 []) (ip_spi_init_prm Board.params) =
    (Board.mkState 2 2 [], (-1, None)) /\
  IS_ERR_VALUE (-1) = true /\
  plat_spi_remove (Platform := Board.platform [1%nat])
                  (Board.mkState 2 2 []) None =
    (Board.mkState 2 3 [], 0) /\
  ad713x_init (pf := Board.platform [1%nat]) 9 Board.params Board.start =
  Ok (FAILURE, None)
     (if IS_ERR_VALUE 0
      then mkWorld (Board.mkState 2 3 [])
             (trace Board.start ++
                [EvCalloc ObjDev (Some 1%nat);
                 EvSpiInit (ip_spi_init_prm Board.params) (-1) None;
                 EvSpiRemove None 0])
      else mkWorld (plat_free (Platform := Board.platform [1%nat])
                              (Board.mkState 2 3 []) (Some 1%nat))
             (trace Board.start ++
                [EvCalloc ObjDev (Some 1%nat);
                 EvSpiInit (ip_spi_init_prm Board.params) (-1) None;
                 EvSpiRemove None 0;
                 EvFree (Some 1%nat)])).
Proof.
  do 6 (split; [reflexivity |]).
  apply (init_spi_failure_exit (hdr := Board.header)
           (pf := Board.platform [1%nat]) eq_refl 9 Board.params
           Board.start (Board.mkState 2 1 []) (Board.mkState 2 2 [])
           (Board.mkState 2 3 []) 1%nat (-1) 0 None);
    reflexivity.
Defined.

Lemma init_shared_bus_null_store_on_board :
  ip_spi_common_dev Board.shared_params =
    Some {| max_speed_hz := 10000000; chip_select := 1; mode := 3;
            extra := 0 |} /\
  plat_calloc (Platform := Board.platform [1%nat]) (plat Board.start)
              ObjDev = (Board.mkState 2 1 [], Some 1%nat) /\
  plat_calloc (Platform := Board.platform [1%nat])
              (Board.mkState 2 1 []) ObjSpiDesc =
    (Board.mkState 2 2 [], None) /\
  ad713x_init (pf := Board.platform [1%nat]) 9 Board.shared_params
              Board.start = Fault NullDeref.
Proof.
  do 3 (split; [reflexivity |]).
  apply (init_shared_bus_null_store (hdr := Board.header)
           (pf := Board.platform [1%nat]) 9 Board.shared_params
           Board.start
           {| max_speed_hz := 10000000; chip_select := 1; mode := 3;
              extra := 0 |}
           (Board.mkState 2 1 []) (Board.mkState 2 2 []) 1%nat);
    reflexivity.
Defined.


Lemma setters_stay_on_their_register_on_board :
  IS_ERR_VALUE FAILURE = true /\
  IS_ERR_VALUE SUCCESS = false /\
  accesses_only AD713X_REG_DEVICE_CONFIG
    (ad713x_set_power_mode Board.device 1) /\
  accesses_only AD713X_REG_DATA_PACKET_CONFIG
    (ad713x_set_out_data_frame 9 Board.device 1 1) /\
  accesses_only AD713X_REG_DIGITAL_INTERFACE_CONFIG
    (ad713x_dout_format_config Board.device 1) /\
  accesses_only AD713X_REG_MPC_CONFIG
    (ad713x_mag_phase_clk_delay Board.device true) /\
  accesses_only AD713X_REG_MPC_CONFIG
    (ad713x_mag_phase_clk_delay_chan Board.device 2 1) /\
  accesses_only AD713X_REG_CHAN_DIG_FILTER_SEL
    (ad713x_dig_filter_sel_ch Board.device 1 2) /\
  accesses_only AD713X_REG_DEVICE_CONFIG1
    (ad713x_clkout_output_en Board.device true) /\
  accesses_only AD713X_REG_DEVICE_CONFIG1
    (ad713x_ref_gain_correction_en Board.device true) /\
  accesses_only AD713X_REG_FIR_BW_SEL
    (ad713x_wideband_bw_sel Board.device 2 1) /\
  accesses_only AD713X_REG_FIR_BW_SEL (ad713x_init_chan_bw Board.device).
Proof.
  split; [reflexivity |]. split; [reflexivity |].
  apply (setters_stay_on_their_register (hdr := Board.header)
           (pf := Board.platform []) eq_refl eq_refl 9 Board.device
           1 1 2 true).
Defined.

End FurtherOnTheBoard.
